(** * Device session registry and command/response correlation

    A shallow embedding of the server side of [app_improved.py]: the two HTTP
    upload endpoints, the Socket.IO event handlers, the command dispatcher and
    the registry scans of the console, followed by the properties the
    specification states about them.

    Python values are modelled as the interpreter has them: a [str] is a
    sequence of Unicode code points, a [dict] keeps its keys in insertion
    order, a decoded JSON document is a tree of [None], booleans, numbers,
    strings, lists and dicts. *)

From Stdlib Require Import String Ascii NArith ZArith.
From stdpp Require Import base option list gmap.

Open Scope N_scope.

(** ** Python strings *)

(** A [str]: the list of its code points. *)
Abbreviation pystr := (list N).

(** Code points of an ASCII literal of the source. *)
Definition lit (s : string) : pystr :=
  map N_of_ascii (list_ascii_of_string s).

Definition chr (c : ascii) : N := N_of_ascii c.

Arguments lit : simpl never.
Arguments chr : simpl never.

Definition is_ascii (c : N) : bool := c <? 128.

Definition ascii_upper (c : N) : bool := (65 <=? c) && (c <=? 90).
Definition ascii_lower (c : N) : bool := (97 <=? c) && (c <=? 122).
Definition ascii_digit (c : N) : bool := (48 <=? c) && (c <=? 57).

(** [str.isalnum] restricted to ASCII: exactly the letters and digits. *)
Definition ascii_alnum (c : N) : bool :=
  ascii_upper c || ascii_lower c || ascii_digit c.

(** [str.lower] on one ASCII code point. *)
Definition ascii_to_lower (c : N) : N :=
  if ascii_upper c then c + 32 else c.

Definition str_eqb (s t : pystr) : bool := bool_decide (s = t).

(** [x in [a, b, ...]] for strings. *)
Definition str_in (s : pystr) (l : list pystr) : bool :=
  existsb (str_eqb s) l.

(** ** Decoded JSON documents *)

(** What [json.loads] and the Socket.IO layer hand to the handlers.  A float
    is kept as its IEEE-754 binary64 bit pattern; a dict as its items in
    insertion order, one item per key. *)
#[warnings="-register-all"]
Inductive json : Type :=
| JNull
| JBool (b : bool)
| JInt (z : Z)
| JFloat (bits : N)
| JStr (s : pystr)
| JArr (items : list json)
| JObj (items : list (pystr * json)).

(** Python truth value of a decoded JSON value ([not v] is its negation). *)
Definition truthy (v : json) : bool :=
  match v with
  | JNull => false
  | JBool b => b
  | JInt z => negb (z =? 0)%Z
  | JFloat bits => negb (N.land bits (2 ^ 63 - 1) =? 0)
  | JStr s => negb (bool_decide (s = []))
  | JArr l => match l with [] => false | _ => true end
  | JObj l => match l with [] => false | _ => true end
  end.

(** ** Dicts with insertion order *)

Section PyDict.
Context {V : Type}.

Local Abbreviation pydict := (list (pystr * V)).

(** [d.get(k)] *)
Fixpoint dict_get (d : pydict) (k : pystr) : option V :=
  match d with
  | [] => None
  | (k', v) :: d' => if str_eqb k' k then Some v else dict_get d' k
  end.

(** [k in d] *)
Definition dict_mem (d : pydict) (k : pystr) : bool :=
  match dict_get d k with Some _ => true | None => false end.

(** [d[k] = v]: an existing key keeps its position, a new key goes last. *)
Fixpoint dict_set (d : pydict) (k : pystr) (v : V) : pydict :=
  match d with
  | [] => [(k, v)]
  | (k', v') :: d' =>
      if str_eqb k' k then (k', v) :: d' else (k', v') :: dict_set d' k v
  end.

(** [d.pop(k)] on a key that is present: the dict without it. *)
Fixpoint dict_del (d : pydict) (k : pystr) : pydict :=
  match d with
  | [] => []
  | (k', v') :: d' =>
      if str_eqb k' k then d' else (k', v') :: dict_del d' k
  end.

Definition dict_keys (d : pydict) : list pystr := map fst d.
End PyDict.

Abbreviation pydict V := (list (pystr * V)).

(** [v.get(k, default)] succeeds on a dict only. *)
Definition json_get (v : json) (k : pystr) (dflt : json) : option json :=
  match v with
  | JObj d => Some (default dflt (dict_get d k))
  | _ => None
  end.

(** [x == s] for a decoded JSON value [x] and a string [s]. *)
Definition json_eq_str (v : json) (s : pystr) : bool :=
  match v with
  | JStr t => str_eqb t s
  | _ => false
  end.

(** Exceptions the modelled code can raise, with the offending value.
    [ValueError] and [RecursionError] are those of [json.loads] on a text
    that is JSON but beyond the interpreter's limits (an integer literal of
    more than 4300 digits, nesting beyond the recursion limit);
    [UnicodeEncodeError] is that of writing a string that cannot be encoded
    (a lone surrogate) to a UTF-8 file. *)
Inductive exn : Type :=
| AttributeError (v : json)
| TypeError (v : json)
| ValueError (text : pystr)
| RecursionError
| UnicodeEncodeError (v : json).

(** ** Library tables the source relies on

    The parts of the interpreter's library whose tables are not in the
    source: the Unicode database beyond ASCII, [str()] of a value that is
    not a string, [os.path], and what stops [json.dump]. *)
Class PyRuntime : Type := {
  (** [c.isalnum()] for a code point of 128 and above *)
  nonascii_alnum : N -> bool;
  (** [s.lower()] for a string holding a code point of 128 and above *)
  nonascii_lower : pystr -> pystr;
  (** [str(v)] for a value that is not a [str] *)
  format_value : json -> pystr;
  (** [str(e)] for an exception *)
  exn_text : exn -> pystr;
  (** [os.path.basename] *)
  basename : pystr -> pystr;
  (** [os.path.splitext] *)
  splitext : pystr -> pystr * pystr;
  (** the exception, if any, that stops
      [json.dump(data, f, ensure_ascii=False, indent=4)] on a file opened
      with [encoding="utf-8"] *)
  json_dump_error : json -> option exn
}.

Section Strings.
Context `{PyRuntime}.

(** [c.isalnum()] *)
Definition isalnum (c : N) : bool :=
  if is_ascii c then ascii_alnum c else nonascii_alnum c.

(** [s.lower()] *)
Definition lower (s : pystr) : pystr :=
  if forallb is_ascii s then map ascii_to_lower s else nonascii_lower s.

(** An interpolated [{v}] of an f-string. *)
Definition fmt (v : json) : pystr :=
  match v with
  | JStr s => s
  | _ => format_value v
  end.

(** [c if c.isalnum() or c in ["_", "-", "."] else "_"] *)
Definition keeps (c : N) : bool :=
  isalnum c
  || bool_decide (c ∈ [chr "_"; chr "-"; chr "."]).

Definition sanitize_char (c : N) : N :=
  if keeps c then c else chr "_".

(** [str.join] of
    [c if c.isalnum() or c in ["_", "-", "."] else "_" for c in raw] *)
Definition sanitize (raw : pystr) : pystr := map sanitize_char raw.

(** [str.join] of [c if c.isalnum() else "_" for c in command_ref] *)
Definition safe_ref (command_ref : pystr) : pystr :=
  map (fun c => if isalnum c then c else chr "_") command_ref.
End Strings.

(** ** Clock readings *)

(** A [datetime.datetime] value. *)
Record datetime : Type := {
  year : N; month : N; day : N;
  hour : N; minute : N; second : N; microsecond : N
}.

(** The [w] low decimal digits of [n], zero padded. *)
Fixpoint zpad (w : nat) (n : N) : pystr :=
  match w with
  | O => []
  | S w' => zpad w' (n / 10) ++ [48 + n mod 10]
  end.

(** [d.strftime('%Y%m%d%H%M%S%f')] *)
Definition strftime_compact (d : datetime) : pystr :=
  zpad 4 (year d) ++ zpad 2 (month d) ++ zpad 2 (day d)
  ++ zpad 2 (hour d) ++ zpad 2 (minute d) ++ zpad 2 (second d)
  ++ zpad 6 (microsecond d).

(** [d.strftime('%Y%m%d_%H%M%S')] *)
Definition strftime_file (d : datetime) : pystr :=
  zpad 4 (year d) ++ zpad 2 (month d) ++ zpad 2 (day d) ++ lit "_"
  ++ zpad 2 (hour d) ++ zpad 2 (minute d) ++ zpad 2 (second d).

(** [d.isoformat()]: the fraction is printed only when it is not zero. *)
Definition isoformat (d : datetime) : pystr :=
  zpad 4 (year d) ++ lit "-" ++ zpad 2 (month d) ++ lit "-" ++ zpad 2 (day d)
  ++ lit "T"
  ++ zpad 2 (hour d) ++ lit ":" ++ zpad 2 (minute d) ++ lit ":"
  ++ zpad 2 (second d)
  ++ (if microsecond d =? 0 then [] else lit "." ++ zpad 6 (microsecond d)).

(** ** Server state *)

(** One value of [connected_clients_sio]: the dict built at registration,
    with its keys ["sid"], ["id"], ["name_display"], ["platform"], ["ip"],
    ["connected_at"] and ["last_seen"]. *)
Record client_info : Type := {
  c_sid : pystr;
  c_id : json;
  c_name_display : json;
  c_platform : json;
  c_ip : pystr;
  c_connected_at : pystr;
  c_last_seen : pystr
}.

(** [client_info["last_seen"] = t] *)
Definition set_last_seen (t : pystr) (c : client_info) : client_info :=
  {| c_sid := c_sid c; c_id := c_id c; c_name_display := c_name_display c;
     c_platform := c_platform c; c_ip := c_ip c;
     c_connected_at := c_connected_at c; c_last_seen := t |}.

(** The texts handed to [logger] and to the console's system log, one
    constructor per format string of the source, with the interpolated
    values as arguments. *)
Inductive message : Type :=
| Request_to (endpoint : pystr)
| No_json_data
| Received_json (model : json)
| Invalid_json (text : pystr)
| Invalid_device_id (raw : json)
| Processing_for (key : pystr)
| Saved_json (key filename : pystr)
| Saved_image (key filename : pystr)
| No_image_file
| Initial_data_from (key : pystr)
| Error_processing (endpoint : pystr) (e : exn)
| Client_connecting (sid ip : pystr)
| Device_disconnected (dev : json) (sid ip : pystr)
| Device_disconnected_sio (dev : json)
| Unknown_client_disconnected (sid ip : pystr)
| Registration_failed_missing_id (sid : pystr) (data : json)
| Device_registered (dev name : json) (sid ip : pystr)
| Device_connected_sio (name dev : json) (ip : pystr)
| Error_in_register (sid : pystr) (e : exn)
| Heartbeat_from_unknown (sid : pystr) (data : json)
| Sending_command (cmd : pystr) (dev : json) (sid : pystr) (args : json)
| Sent_command (cmd : pystr) (dev : json)
| Target_not_found (sid cmd : pystr)
| Response_for (cmd dev status : json) (payload_keys : option (list pystr))
| Response_from (cmd dev status : json)
| Command_succeeded (cmd dev : json)
| Command_failed (cmd dev detail : json)
| Device_id_missing_in_upload
| Device_folder_creating (key : pystr)
| Saved_command_file (filename key : pystr)
| Received_file (filename key ref : pystr)
| No_file_data
| Hist_list_updated (count : nat)
| Device_folder_missing (device_id : pystr)
| Device_selected (device_id : pystr) (connected : bool)
| Live_device_selected (device_id : pystr).

Inductive level : Type := INFO | WARNING | ERROR.

(** One line of the console's system log: [add_system_log(message, error)]
    stamped with the clock reading it takes. *)
Record log_line : Type := {
  at_time : datetime;
  is_error : bool;
  text : message
}.

(** Calls into the widgets of the console, kept as a trace: what the
    presentation layer draws is outside the engine. *)
Inductive widget_op : Type :=
| Live_list_redrawn
| Live_item_updated (sid : pystr)
| Hist_list_refreshed (names : list pystr)
| Details_shown (device_id : pystr)
| Commands_enabled (enable : bool)
| Error_box (sid : pystr).

(** The fields of [C2PanelGUI] the engine reads or writes. *)
Record gui : Type := {
  current_selected_historical_device_id : option pystr;
  current_selected_live_client_sid : option pystr;
  system_log : list log_line;
  widget_ops : list widget_op
}.

(** A stored file: what was written into it.  [Json_dump_partial data] is
    the file [json.dump] leaves when it raises: the text of [data] up to
    where it stopped. *)
Inductive content : Type :=
| Json_dump (data : json)
| Json_dump_partial (data : json)
| Uploaded (bytes : list N).

(** [emit(event, data, room=sid)] and [socketio.emit(event, data, to=sid)].
    The source imports no operation that closes a connection. *)
Record emission : Type := {
  ev_name : pystr;
  ev_data : json;
  ev_to : pystr
}.

(** The module's globals and what lies behind them.

    [received_data] is the directory [DATA_RECEIVED_DIR]: the device folders
    by entry name, each with its files by name.  A folder is addressed in the
    source by [os.path.join(DATA_RECEIVED_DIR, key)].  The keys ["."] and
    [".."] address the data directory itself and its parent: what the server
    writes there is kept under these two keys, which are no device folders
    (see [folder_at]).  The map is exact for a [key] that holds no path
    separator, as every sanitized key does, and within the limits of the
    file system on the length of a name. *)
Record state : Type := {
  connected_clients_sio : pydict client_info;
  gui_app : option gui;
  received_data : gmap pystr (gmap pystr content);
  logged : list (level * message);
  emitted : list emission
}.

(** ** Handlers as state transformers

    A handler reads the clock ([datetime.datetime.now()]) some number of
    times: it is given the readings of its own run, [clk 0], [clk 1], ...,
    and the count of those taken so far is threaded with the state.  An
    exception stops the run and keeps the state reached. *)
Inductive outcome (A : Type) : Type :=
| Ret (a : A)
| Raise (e : exn).
Arguments Ret {A} a.
Arguments Raise {A} e.

#[global] Instance outcome_fmap : FMap outcome :=
  fun A B f r => match r with Ret a => Ret (f a) | Raise e => Raise e end.

Definition M (A : Type) : Type :=
  (nat -> datetime) -> nat * state -> outcome A * (nat * state).

Definition ret {A} (a : A) : M A := fun _ w => (Ret a, w).

Definition bind {A B} (m : M A) (f : A -> M B) : M B :=
  fun clk w =>
    match m clk w with
    | (Ret a, w') => f a clk w'
    | (Raise e, w') => (Raise e, w')
    end.

Definition raise {A} (e : exn) : M A := fun _ w => (Raise e, w).

(** [try: m except Exception as e: h e] *)
Definition try_except {A} (m : M A) (h : exn -> M A) : M A :=
  fun clk w =>
    match m clk w with
    | (Ret a, w') => (Ret a, w')
    | (Raise e, w') => h e clk w'
    end.

#[global] Instance M_ret : MRet M := @ret.
#[global] Instance M_bind : MBind M := fun A B f m => bind m f.

(** [datetime.datetime.now()] *)
Definition now : M datetime :=
  fun clk w => (Ret (clk (fst w)), (S (fst w), snd w)).

Definition get : M state := fun _ w => (Ret (snd w), w).

Definition modify (f : state -> state) : M unit :=
  fun _ w => (Ret tt, (fst w, f (snd w))).

(** A value a failing lookup did not produce. *)
Definition expect {A} (o : option A) (e : exn) : M A :=
  match o with Some a => ret a | None => raise e end.

(** Run a handler on a state with the clock readings of its run. *)
Definition run {A} (m : M A) (clk : nat -> datetime) (s : state)
  : outcome A * state :=
  let '(r, (_, s')) := m clk (O, s) in (r, s').

Definition set_clients (f : pydict client_info -> pydict client_info)
  : state -> state :=
  fun s =>
    {| connected_clients_sio := f (connected_clients_sio s);
       gui_app := gui_app s; received_data := received_data s;
       logged := logged s; emitted := emitted s |}.

Definition set_gui (f : gui -> gui) : state -> state :=
  fun s =>
    {| connected_clients_sio := connected_clients_sio s;
       gui_app := f <$> gui_app s; received_data := received_data s;
       logged := logged s; emitted := emitted s |}.

Definition set_received
  (f : gmap pystr (gmap pystr content) -> gmap pystr (gmap pystr content))
  : state -> state :=
  fun s =>
    {| connected_clients_sio := connected_clients_sio s;
       gui_app := gui_app s; received_data := f (received_data s);
       logged := logged s; emitted := emitted s |}.

Definition record (l : level) (m : message) (s : state) : state :=
  {| connected_clients_sio := connected_clients_sio s;
     gui_app := gui_app s; received_data := received_data s;
     logged := logged s ++ [(l, m)]; emitted := emitted s |}.

Definition send (e : emission) (s : state) : state :=
  {| connected_clients_sio := connected_clients_sio s;
     gui_app := gui_app s; received_data := received_data s;
     logged := logged s; emitted := emitted s ++ [e] |}.

(** [logger.info], [logger.warning], [logger.error] *)
Definition logger (l : level) (m : message) : M unit :=
  modify (record l m).

(** [emit(event, data, room=sid)] and [socketio.emit(event, data, to=sid)] *)
Definition emit (event : pystr) (data : json) (sid : pystr) : M unit :=
  modify (send {| ev_name := event; ev_data := data; ev_to := sid |}).

(** [if gui_app: ...] *)
Definition if_gui (m : M unit) : M unit :=
  s ← get;
  match gui_app s with
  | Some _ => m
  | None => ret tt
  end.

(** ** Console methods the handlers call *)

(** A storage key that names an entry of [DATA_RECEIVED_DIR]: the sanitizer
    lets no path separator through, which leaves ["."] and [".."]. *)
Definition names_entry (key : pystr) : bool :=
  negb (str_in key [lit "."; lit ".."]).

(** The directory at [os.path.join(DATA_RECEIVED_DIR, key)], when there is
    one.  The data directory is made when the module loads (line 20), so
    ["."] and [".."] always address a directory. *)
Definition folder_at (r : gmap pystr (gmap pystr content)) (key : pystr)
  : option (gmap pystr content) :=
  if names_entry key then r !! key else Some (default ∅ (r !! key)).

(** The folders [os.listdir(DATA_RECEIVED_DIR)] shows. *)
Definition device_folders (r : gmap pystr (gmap pystr content))
  : list pystr :=
  filter (λ key, names_entry key = true) (map fst (map_to_list r)).

Definition widget (op : widget_op) : M unit :=
  modify (set_gui (fun g =>
    {| current_selected_historical_device_id :=
         current_selected_historical_device_id g;
       current_selected_live_client_sid := current_selected_live_client_sid g;
       system_log := system_log g;
       widget_ops := widget_ops g ++ [op] |})).

(** [C2PanelGUI.add_system_log] *)
Definition add_system_log (m : message) (error : bool) : M unit :=
  t ← now;
  modify (set_gui (fun g =>
    {| current_selected_historical_device_id :=
         current_selected_historical_device_id g;
       current_selected_live_client_sid := current_selected_live_client_sid g;
       system_log := system_log g
                     ++ [{| at_time := t; is_error := error; text := m |}];
       widget_ops := widget_ops g |})) ;;
  logger (if error then ERROR else INFO) m.

(** [sorted(names)] is left to the widget: the listing is kept as the set of
    folder names, in the order of the map's keys. *)
Definition refresh_historical_device_list : M unit :=
  s ← get;
  widget (Hist_list_refreshed (device_folders (received_data s))) ;;
  add_system_log
    (Hist_list_updated (length (device_folders (received_data s)))) false.

(** [C2PanelGUI.display_device_details] *)
Definition display_device_details (device_id : pystr) : M unit :=
  s ← get;
  match folder_at (received_data s) device_id with
  | None => add_system_log (Device_folder_missing device_id) true
  | Some _ => widget (Details_shown device_id)
  end.

(** [gui_app.current_selected_historical_device_id == v] *)
Definition selected_is (g : gui) (v : json) : bool :=
  match current_selected_historical_device_id g, v with
  | Some s, JStr t => str_eqb s t
  | None, JNull => true
  | _, _ => false
  end.

(** [s in container] for a decoded JSON container: key of a dict, substring
    of a string, element of a list; anything else is not iterable. *)
Fixpoint starts_with (p s : pystr) : bool :=
  match p, s with
  | [], _ => true
  | a :: p', b :: s' => (a =? b) && starts_with p' s'
  | _ :: _, [] => false
  end.

Fixpoint substring_of (p s : pystr) : bool :=
  starts_with p s
  || match s with
     | [] => false
     | _ :: s' => substring_of p s'
     end.

Definition json_contains (container : json) (s : pystr) : option bool :=
  match container with
  | JObj d => Some (dict_mem d s)
  | JStr t => Some (substring_of s t)
  | JArr l => Some (existsb (fun v => json_eq_str v s) l)
  | _ => None
  end.

(** [list(payload.keys()) if isinstance(payload, dict) else 'Not dict'] *)
Definition payload_keys (payload : json) : option (list pystr) :=
  match payload with
  | JObj d => Some (dict_keys d)
  | _ => None
  end.

(** [C2PanelGUI.display_command_response] *)
Definition display_command_response (device_id command status payload : json)
  : M unit :=
  if json_eq_str status (lit "success") then
    add_system_log (Command_succeeded command device_id) false
  else
    detail ← expect (json_get payload (lit "message") (JStr (lit "No message")))
                    (AttributeError payload);
    add_system_log (Command_failed command device_id detail) true.

(** The scan shared by [on_historical_device_select] and
    [on_live_client_select]:
    [for sid, client_info in connected_clients_sio.items():
       if client_info.get("id") == device_id: ...; break] *)
Fixpoint find_sid_by_device_id (d : pydict client_info) (device_id : pystr)
  : option pystr :=
  match d with
  | [] => None
  | (sid, info) :: d' =>
      if json_eq_str (c_id info) device_id then Some sid
      else find_sid_by_device_id d' device_id
  end.

Definition select_historical (device_id : pystr) : M unit :=
  modify (set_gui (fun g =>
    {| current_selected_historical_device_id := Some device_id;
       current_selected_live_client_sid := current_selected_live_client_sid g;
       system_log := system_log g; widget_ops := widget_ops g |})).

Definition select_live (sid : pystr) : M unit :=
  modify (set_gui (fun g =>
    {| current_selected_historical_device_id :=
         current_selected_historical_device_id g;
       current_selected_live_client_sid := Some sid;
       system_log := system_log g; widget_ops := widget_ops g |})).

(** [C2PanelGUI.on_historical_device_select], for the listbox entry
    [device_id] *)
Definition on_historical_device_select (device_id : pystr) : M unit :=
  select_historical device_id;;
  display_device_details device_id;;
  s ← get;
  let found := find_sid_by_device_id (connected_clients_sio s) device_id in
  match found with
  | Some sid => select_live sid
  | None => ret tt
  end;;
  widget (Commands_enabled (bool_decide (is_Some found)));;
  add_system_log (Device_selected device_id (bool_decide (is_Some found))) false.

(** [C2PanelGUI.on_live_client_select], for the tree row of [device_id] *)
Definition on_live_client_select (device_id : pystr) : M unit :=
  s ← get;
  match find_sid_by_device_id (connected_clients_sio s) device_id with
  | Some ((_ :: _) as sid) =>
      select_live sid;;
      select_historical device_id;;
      display_device_details device_id;;
      widget (Commands_enabled true);;
      add_system_log (Live_device_selected device_id) false
  | _ => ret tt
  end.

(** ** Requests and replies of the HTTP endpoints *)

(** [jsonify({...}), code] *)
Record http_response : Type := {
  code : N;
  status : pystr;
  reply : pystr;
  filename_on_server : option pystr
}.

Definition reply_error (c : N) (m : pystr) : http_response :=
  {| code := c; status := lit "error"; reply := m;
     filename_on_server := None |}.

(** An entry of [request.files]. *)
Record upload : Type := {
  filename : pystr;
  body : list N
}.

(** The form field [json_data] with the verdict of [json.loads] on it:
    absent or empty, rejected with [JSONDecodeError], stopped by another
    exception ([ValueError] for an integer literal of more than 4300 digits,
    [RecursionError] for nesting beyond the recursion limit), or decoded. *)
Inductive json_field : Type :=
| No_field
| Bad_json (text : pystr)
| Loads_raises (e : exn)
| Good_json (data : json).

Record initial_request : Type := {
  json_data : json_field;
  image : option upload
}.

Record command_file_request : Type := {
  deviceId : option pystr;
  commandRef : option pystr;
  file : option upload
}.

(** [os.makedirs(folder, exist_ok=True)]: nothing to make where a directory
    is. *)
Definition makedirs (key : pystr) : M unit :=
  modify (set_received (fun r =>
    match folder_at r key with
    | Some _ => r
    | None => <[key := ∅]> r
    end)).

(** Writing [c] to the file [name] of the folder [key]. *)
Definition save (key name : pystr) (c : content) : M unit :=
  modify (set_received (fun r =>
    <[key := <[name := c]> (default ∅ (r !! key))]> r)).

(** The deviceId of an initial upload is taken as it is unless
    [not raw_device_id or not isinstance(raw_device_id, str)
     or len(raw_device_id) < 5]. *)
Definition accepted_device_id (v : json) : option pystr :=
  match v with
  | JStr s =>
      if negb (truthy v) || (length s <? 5)%nat then None else Some s
  | _ => None
  end.

Section Handlers.
Context `{PyRuntime}.

(** [f"{model}_{name}"] from the deviceInfo dict *)
Definition fallback_device_id (device_info : json) : M pystr :=
  model ← expect (json_get device_info (lit "model")
                    (JStr (lit "unknown_model")))
                 (AttributeError device_info);
  name ← expect (json_get device_info (lit "deviceName")
                   (JStr (lit "unknown_device")))
                (AttributeError device_info);
  ret (fmt model ++ lit "_" ++ fmt name).

(** Lines 66 to 78 of [upload_initial_data]: the raw identifier. *)
Definition raw_device_id (data : json) : M pystr :=
  device_info ← expect (json_get data (lit "deviceInfo") (JObj []))
                       (AttributeError data);
  raw ← expect (json_get data (lit "deviceId") JNull) (AttributeError data);
  match accepted_device_id raw with
  | Some s => ret s
  | None =>
      logger WARNING (Invalid_device_id raw);;
      fallback_device_id device_info
  end.

(** The sanitized keys replaced by a generated one. *)
Definition degenerate (key : pystr) : bool :=
  bool_decide (key = [])
  || str_in (lower key)
       [lit "unknown_model_unknown_device"; lit "_";
        lit "unknown_device_unknown_model"].

(** Lines 80 to 88 of [upload_initial_data]: the storage key. *)
Definition initial_key (raw : pystr) : M pystr :=
  let device_id_sanitized := sanitize raw in
  if degenerate device_id_sanitized then
    t ← now;
    ret (lit "unidentified_device_" ++ strftime_compact t)
  else ret device_id_sanitized.

(** The extension kept for a stored upload. *)
Definition ext_or (name : pystr) (dflt : pystr) : pystr * pystr :=
  let '(base, ext) := splitext (basename name) in
  (base, match ext with [] => dflt | _ => ext end).

(** [with open(path, "w", encoding="utf-8") as f:
       json.dump(data, f, ensure_ascii=False, indent=4)]
    for the file [name] of the folder [key]: [open] makes the file in any
    case, and it holds part of the text when [json.dump] raises. *)
Definition json_dump (key name : pystr) (data : json) : M unit :=
  match json_dump_error data with
  | None => save key name (Json_dump data)
  | Some e => save key name (Json_dump_partial data);; raise e
  end.

(** [upload_initial_data] *)
Definition upload_initial_data (req : initial_request) : M http_response :=
  logger INFO (Request_to (lit "/upload_initial_data"));;
  try_except
    (match json_data req with
     | No_field =>
         logger ERROR No_json_data;;
         ret (reply_error 400 (lit "Missing json_data"))
     | Bad_json text =>
         logger ERROR (Invalid_json (take 100 text));;
         ret (reply_error 400 (lit "Invalid JSON format"))
     | Loads_raises e => raise e
     | Good_json data =>
         info ← expect (json_get data (lit "deviceInfo") (JObj []))
                       (AttributeError data);
         summary ← expect (json_get info (lit "model") (JStr (lit "N/A")))
                          (AttributeError info);
         logger INFO (Received_json summary);;
         raw ← raw_device_id data;
         key ← initial_key raw;
         logger INFO (Processing_for key);;
         makedirs key;;
         t ← now;
         let info_file_name := lit "info_" ++ strftime_file t ++ lit ".json" in
         json_dump key info_file_name data;;
         logger INFO (Saved_json key info_file_name);;
         match image req with
         | Some (Build_upload ((_ :: _) as name) bytes) =>
             let '(_, ext) := ext_or name (lit ".jpg") in
             t ← now;
             let image_filename :=
               lit "initial_img_" ++ strftime_file t ++ ext in
             save key image_filename (Uploaded bytes);;
             logger INFO (Saved_image key image_filename)
         | _ => logger INFO No_image_file
         end;;
         if_gui (add_system_log (Initial_data_from key) false;;
                 refresh_historical_device_list);;
         ret {| code := 200; status := lit "success";
                reply := lit "Initial data received";
                filename_on_server := None |}
     end)
    (fun e =>
       logger ERROR (Error_processing (lit "/upload_initial_data") e);;
       ret (reply_error 500 (lit "Internal server error: " ++ exn_text e))).

(** Lines 294 to 303 of [upload_command_file]: the storage key of a
    deviceId form field, when the request is not turned down. *)
Definition command_file_key (device_id : option pystr) : option pystr :=
  match device_id with
  | Some ((_ :: _) as d) => Some (sanitize d)
  | _ => None
  end.

(** The name a command file is stored under:
    [f"{safe_command_ref}_{base}_{now:%Y%m%d_%H%M%S}{ext}"] *)
Definition command_file_name (command_ref name : pystr) (t : datetime)
  : pystr :=
  let '(base, ext) := ext_or name (lit ".dat") in
  let safe_command_ref := safe_ref command_ref in
  safe_command_ref ++ lit "_" ++ base ++ lit "_" ++ strftime_file t ++ ext.

(** [upload_command_file] *)
Definition upload_command_file (req : command_file_request)
  : M http_response :=
  logger INFO (Request_to (lit "/upload_command_file"));;
  try_except
    (let command_ref := default (lit "unknown_cmd_ref") (commandRef req) in
     match command_file_key (deviceId req) with
     | None =>
         logger ERROR Device_id_missing_in_upload;;
         ret (reply_error 400 (lit "Missing deviceId"))
     | Some device_id_sanitized =>
         s ← get;
         match folder_at (received_data s) device_id_sanitized with
         | Some _ => ret tt
         | None =>
             logger WARNING (Device_folder_creating device_id_sanitized);;
             makedirs device_id_sanitized;;
             if_gui refresh_historical_device_list
         end;;
         match file req with
         | Some (Build_upload ((_ :: _) as name) bytes) =>
             t ← now;
             let new_filename := command_file_name command_ref name t in
             save device_id_sanitized new_filename (Uploaded bytes);;
             logger INFO (Saved_command_file new_filename device_id_sanitized);;
             if_gui (
               add_system_log
                 (Received_file new_filename device_id_sanitized command_ref)
                 false;;
               s ← get;
               if default false
                    (flip selected_is (JStr device_id_sanitized)
                       <$> gui_app s)
               then display_device_details device_id_sanitized
               else ret tt);;
             ret {| code := 200; status := lit "success";
                    reply := lit "File received by C2";
                    filename_on_server := Some new_filename |}
         | _ =>
             logger ERROR No_file_data;;
             ret (reply_error 400 (lit "Missing file data in request"))
         end
     end)
    (fun e =>
       logger ERROR (Error_processing (lit "/upload_command_file") e);;
       ret (reply_error 500 (lit "Internal server error: " ++ exn_text e))).
End Handlers.

(** ** Socket.IO event handlers

    [sid] is [request.sid], [ip] is [request.remote_addr] and [data] is the
    decoded payload of the event. *)

(** [d[k][...] = ...]: the value under [k] changed in place. *)
Fixpoint dict_alter {V} (f : V -> V) (d : pydict V) (k : pystr) : pydict V :=
  match d with
  | [] => []
  | (k', v) :: d' =>
      if str_eqb k' k then (k', f v) :: d' else (k', v) :: dict_alter f d' k
  end.

(** [handle_sio_connect] *)
Definition handle_sio_connect (sid ip : pystr) : M unit :=
  logger INFO (Client_connecting sid ip).

(** [handle_sio_disconnect] *)
Definition handle_sio_disconnect (sid ip : pystr) : M unit :=
  s ← get;
  match dict_get (connected_clients_sio s) sid with
  | Some device_info =>
      modify (set_clients (fun d => dict_del d sid));;
      let dev_id_display := c_id device_info in
      logger INFO (Device_disconnected dev_id_display sid (c_ip device_info));;
      if_gui (widget Live_list_redrawn;;
              add_system_log (Device_disconnected_sio dev_id_display) false)
  | None => logger WARNING (Unknown_client_disconnected sid ip)
  end.

Section Sockets.
Context `{PyRuntime}.

(** [handle_register_device] *)
Definition handle_register_device (sid ip : pystr) (data : json) : M unit :=
  try_except
    (device_identifier ←
       expect (json_get data (lit "deviceId") JNull) (AttributeError data);
     device_name_display ←
       expect (json_get data (lit "deviceName")
                 (JStr (lit "Device_" ++ take 6 sid)))
              (AttributeError data);
     device_platform ←
       expect (json_get data (lit "platform") (JStr (lit "Unknown")))
              (AttributeError data);
     if negb (truthy device_identifier) then
       logger ERROR (Registration_failed_missing_id sid data);;
       emit (lit "registration_failed")
         (JObj [(lit "message",
                 JStr (lit "Missing 'deviceId' in registration payload."))])
         sid
     else
       connected_at ← now;
       last_seen ← now;
       modify (set_clients (fun d =>
         dict_set d sid
           {| c_sid := sid; c_id := device_identifier;
              c_name_display := device_name_display;
              c_platform := device_platform; c_ip := ip;
              c_connected_at := isoformat connected_at;
              c_last_seen := isoformat last_seen |}));;
       logger INFO
         (Device_registered device_identifier device_name_display sid ip);;
       emit (lit "registration_successful")
         (JObj [(lit "message",
                 JStr (lit "Successfully registered with C2 panel."));
                (lit "sid", JStr sid)])
         sid;;
       if_gui (
         widget Live_list_redrawn;;
         add_system_log
           (Device_connected_sio device_name_display device_identifier ip)
           false;;
         s ← get;
         if default false (flip selected_is device_identifier <$> gui_app s)
         then widget (Commands_enabled true)
         else ret tt))
    (fun e =>
       logger ERROR (Error_in_register sid e);;
       emit (lit "registration_failed")
         (JObj [(lit "message",
                 JStr (lit "Server error during registration: "
                       ++ exn_text e))])
         sid).
End Sockets.

(** [handle_device_heartbeat] *)
Definition handle_device_heartbeat (sid : pystr) (data : json) : M unit :=
  s ← get;
  if dict_mem (connected_clients_sio s) sid then
    t ← now;
    modify (set_clients (fun d =>
      dict_alter (set_last_seen (isoformat t)) d sid));;
    if_gui (widget (Live_item_updated sid))
  else
    logger WARNING (Heartbeat_from_unknown sid data);;
    emit (lit "request_registration_info") (JObj []) sid.

(** [send_command_to_client]; [args] is [None] when the caller leaves the
    default. *)
Definition send_command_to_client
  (target_sid command_name : pystr) (args : option json) : M bool :=
  let args := default (JObj []) args in
  s ← get;
  match dict_get (connected_clients_sio s) target_sid with
  | Some client_info =>
      logger INFO
        (Sending_command command_name (c_id client_info) target_sid args);;
      emit command_name args target_sid;;
      if_gui (add_system_log (Sent_command command_name (c_id client_info))
                false);;
      ret true
  | None =>
      logger ERROR (Target_not_found target_sid command_name);;
      if_gui (add_system_log (Target_not_found target_sid command_name) true;;
              widget (Error_box target_sid));;
      ret false
  end.

(** The device identifier a response is filed under:
    [device_info["id"] if device_info and "id" in device_info
     else f"SID_{client_sid}"] *)
Definition resolve_device_id (clients : pydict client_info) (sid : pystr)
  : json :=
  match dict_get clients sid with
  | Some device_info => c_id device_info
  | None => JStr (lit "SID_" ++ sid)
  end.

(** [handle_command_response] *)
Definition handle_command_response (sid : pystr) (data : json) : M unit :=
  s ← get;
  let device_id_str := resolve_device_id (connected_clients_sio s) sid in
  command_name ←
    expect (json_get data (lit "command") (JStr (lit "unknown_command")))
           (AttributeError data);
  status ←
    expect (json_get data (lit "status") (JStr (lit "unknown")))
           (AttributeError data);
  payload ←
    expect (json_get data (lit "payload") (JObj [])) (AttributeError data);
  logger INFO
    (Response_for command_name device_id_str status (payload_keys payload));;
  if_gui (
    add_system_log (Response_from command_name device_id_str status) false;;
    display_command_response device_id_str command_name status payload;;
    has_file ← expect (json_contains payload (lit "filename_on_server"))
                      (TypeError payload);
    s ← get;
    if has_file
       && default false (flip selected_is device_id_str <$> gui_app s)
    then
      match device_id_str with
      | JStr d => display_device_details d
      | v => raise (TypeError v)
      end
    else ret tt).

(** ** Console commands

    The button handlers of [C2PanelGUI].  The answer to a confirmation dialog
    and the text of the entry box are inputs. *)

(** [c.isspace()] *)
Definition isspace (c : N) : bool :=
  ((9 <=? c) && (c <=? 13)) || ((28 <=? c) && (c <=? 32))
  || bool_decide (c ∈ [133; 160; 5760; 8232; 8233; 8239; 8287; 12288])
  || ((8192 <=? c) && (c <=? 8202)).

(** [s.lstrip()] *)
Fixpoint lstrip (s : pystr) : pystr :=
  match s with
  | [] => []
  | c :: s' => if isspace c then lstrip s' else s
  end.

(** [s.strip()] *)
Definition strip (s : pystr) : pystr :=
  reverse (lstrip (reverse (lstrip s))).

(** [s.split(":", 1)] when [":" in s]: the text before the first colon and
    the text after it. *)
Fixpoint split_colon (s : pystr) : option (pystr * pystr) :=
  match s with
  | [] => None
  | c :: s' =>
      if c =? chr ":" then Some ([], s')
      else (λ parts, (c :: parts.1, parts.2)) <$> split_colon s'
  end.

(** [self.current_selected_live_client_sid], when it is set and not empty. *)
Definition selected_live_sid (s : state) : option pystr :=
  match gui_app s ≫= current_selected_live_client_sid with
  | Some ((_ :: _) as sid) => Some sid
  | _ => None
  end.

(** [if self.current_selected_live_client_sid:
       send_command_to_client(self.current_selected_live_client_sid, name, {})] *)
Definition send_if_selected (command_name : pystr) : M unit :=
  s ← get;
  match selected_live_sid s with
  | Some sid =>
      send_command_to_client sid command_name (Some (JObj []));;
      mret tt
  | None => mret tt
  end.

(** The same behind [messagebox.askyesno], whose answer is [confirmed]; the
    dialog is shown only when a client is selected. *)
Definition send_if_confirmed (command_name : pystr) (confirmed : bool)
  : M unit :=
  s ← get;
  match selected_live_sid s with
  | Some sid =>
      if confirmed then
        send_command_to_client sid command_name (Some (JObj []));;
        mret tt
      else mret tt
  | None => mret tt
  end.

Definition send_collect_info_command : M unit :=
  send_if_selected (lit "collect_device_info").

Definition send_screenshot_command : M unit :=
  send_if_selected (lit "take_screenshot").

Definition send_lock_device_command (confirmed : bool) : M unit :=
  send_if_confirmed (lit "lock_device") confirmed.

Definition send_self_destruct_command (confirmed : bool) : M unit :=
  send_if_confirmed (lit "self_destruct") confirmed.

Definition send_collect_contacts_command : M unit :=
  send_if_selected (lit "collect_contacts").

Definition send_collect_sms_command : M unit :=
  send_if_selected (lit "collect_sms").

(** What [json.loads] makes of a text: the decoded value, a
    [JSONDecodeError], or another exception ([ValueError] for an integer
    literal of more than 4300 digits, [RecursionError] for nesting beyond
    the recursion limit). *)
Inductive loads_result : Type :=
| Decoded (v : json)
| Decode_error
| Loads_raised (e : exn).

Section CustomCommand.
(** [json.loads] *)
Variable json_loads : pystr → loads_result.

(** The command name and argument bag [send_custom_command] reads out of the
    stripped, non-empty entry text [cmd]; the [except] clause takes a
    [JSONDecodeError] only, so another exception of [json.loads] leaves the
    method. *)
Definition parse_custom_command (cmd : pystr) : outcome (pystr * json) :=
  match split_colon cmd with
  | Some (before, after) =>
      let cmd_name := strip before in
      match json_loads (strip after) with
      | Decoded (JObj d) => Ret (cmd_name, JObj d)
      | Decoded v => Ret (cmd_name, JObj [(lit "value", v)])
      | Decode_error =>
          Ret (cmd_name, JObj [(lit "value", JStr (strip after))])
      | Loads_raised e => Raise e
      end
  | None => Ret (cmd, JObj [])
  end.

(** [C2PanelGUI.send_custom_command] on the entry text; the result tells
    whether the entry box was cleared. *)
Definition send_custom_command (entry : pystr) : M bool :=
  s ← get;
  match selected_live_sid s with
  | Some sid =>
      match strip entry with
      | [] => mret false
      | cmd =>
          match parse_custom_command cmd with
          | Ret (cmd_name, cmd_args) =>
              send_command_to_client sid cmd_name (Some cmd_args);;
              mret true
          | Raise e => raise e
          end
      end
  | None => mret false
  end.
End CustomCommand.

(** ** The server as a machine over events

    What the transport, the HTTP layer and the operator hand to the server,
    one constructor per handler. *)
Inductive event : Type :=
| Connect (sid ip : pystr)
| Disconnect (sid ip : pystr)
| Register_device (sid ip : pystr) (data : json)
| Device_heartbeat (sid : pystr) (data : json)
| Command_response (sid : pystr) (data : json)
| Upload_initial_data (req : initial_request)
| Upload_command_file (req : command_file_request)
| Historical_device_select (device_id : pystr)
| Live_client_select (device_id : pystr)
| Command_button (command_name : pystr)
| Confirmed_button (command_name : pystr) (confirmed : bool).

(** The handler an event runs, its return value left aside. *)
Definition handler `{PyRuntime} (e : event) : M unit :=
  match e with
  | Connect sid ip => handle_sio_connect sid ip
  | Disconnect sid ip => handle_sio_disconnect sid ip
  | Register_device sid ip data => handle_register_device sid ip data
  | Device_heartbeat sid data => handle_device_heartbeat sid data
  | Command_response sid data => handle_command_response sid data
  | Upload_initial_data req => upload_initial_data req;; mret tt
  | Upload_command_file req => upload_command_file req;; mret tt
  | Historical_device_select device_id =>
      on_historical_device_select device_id
  | Live_client_select device_id => on_live_client_select device_id
  | Command_button command_name => send_if_selected command_name
  | Confirmed_button command_name confirmed =>
      send_if_confirmed command_name confirmed
  end.

(** The state after an event, given the clock readings of its run. *)
Definition step `{PyRuntime} (s : state) (e : event) (clk : nat → datetime)
  : state :=
  (run (handler e) clk s).2.

(** The state after a sequence of events, each with its clock readings. *)
Definition steps `{PyRuntime} (s : state)
  (trace : list (event * (nat → datetime))) : state :=
  foldl (λ s ec, step s ec.1 ec.2) s trace.

(** ** A runtime to run the model on

    The library tables of CPython 3.11 on a POSIX system, as far as the
    examples below need them: the Unicode tables are those of the Latin-1
    Supplement (code points 128 to 255; beyond, nothing is alphanumeric and
    nothing has a lower case here), [str()] is that of [None], booleans and
    integers (other values print as their type name in angle brackets, which
    is not the interpreter's text), [os.path] is [posixpath], and
    [json.dump] stops at a lone surrogate (the text of that exception is
    given without the character and its position; the recursion limit is
    left out). *)
Module Cpython.
Definition latin1_alnum (c : N) : bool :=
  bool_decide (c ∈ [170; 178; 179; 181; 185; 186; 188; 189; 190])
  || ((192 <=? c) && (c <=? 255) && negb (c =? 215) && negb (c =? 247)).

Definition latin1_to_lower (c : N) : N :=
  if ascii_upper c
     || ((192 <=? c) && (c <=? 222) && negb (c =? 215))
  then c + 32 else c.

Definition type_name (v : json) : pystr :=
  match v with
  | JNull => lit "NoneType"
  | JBool _ => lit "bool"
  | JInt _ => lit "int"
  | JFloat _ => lit "float"
  | JStr _ => lit "str"
  | JArr _ => lit "list"
  | JObj _ => lit "dict"
  end.

Fixpoint decimal_digits (fuel : nat) (n : N) (acc : pystr) : pystr :=
  match fuel with
  | O => acc
  | S fuel' =>
      let acc' := (48 + n mod 10) :: acc in
      if n / 10 =? 0 then acc' else decimal_digits fuel' (n / 10) acc'
  end.

Definition decimal (n : N) : pystr :=
  decimal_digits (S (N.to_nat (N.log2 n))) n [].

Definition str_of (v : json) : pystr :=
  match v with
  | JNull => lit "None"
  | JBool true => lit "True"
  | JBool false => lit "False"
  | JInt z =>
      (if (z <? 0)%Z then lit "-" else []) ++ decimal (Z.abs_N z)
  | JStr s => s
  | _ => lit "<" ++ type_name v ++ lit ">"
  end.

Definition str_of_exn (e : exn) : pystr :=
  match e with
  | AttributeError v =>
      lit "'" ++ type_name v ++ lit "' object has no attribute 'get'"
  | TypeError v =>
      lit "argument of type '" ++ type_name v ++ lit "' is not iterable"
  | ValueError text => text
  | RecursionError => lit "maximum recursion depth exceeded"
  | UnicodeEncodeError _ =>
      lit "'utf-8' codec can't encode character: surrogates not allowed"
  end.

(** A code point that UTF-8 does not encode. *)
Definition is_surrogate (c : N) : bool := (55296 <=? c) && (c <=? 57343).

(** A string of the document, key or value, holds a surrogate. *)
Fixpoint holds_surrogate (v : json) : bool :=
  match v with
  | JStr s => existsb is_surrogate s
  | JArr l => existsb holds_surrogate l
  | JObj l =>
      existsb (λ '(k, x), existsb is_surrogate k || holds_surrogate x) l
  | _ => false
  end.

(** [json.dump] to a UTF-8 file stops at a string it cannot encode. *)
Definition dump_error (data : json) : option exn :=
  if holds_surrogate data then Some (UnicodeEncodeError data) else None.

(** [(s[:i], s[i:])] for the last [i] with [s[i] == c] *)
Fixpoint rsplit (c : N) (s : pystr) : option (pystr * pystr) :=
  match s with
  | [] => None
  | a :: s' =>
      match rsplit c s' with
      | Some (l, r) => Some (a :: l, r)
      | None => if a =? c then Some ([], s) else None
      end
  end.

Definition posix_basename (p : pystr) : pystr :=
  match rsplit (chr "/") p with
  | Some (_, r) => tail r
  | None => p
  end.

Fixpoint leading_dots (s : pystr) : pystr * pystr :=
  match s with
  | c :: s' =>
      if c =? chr "." then
        let '(dots, rest) := leading_dots s' in (c :: dots, rest)
      else ([], s)
  | [] => ([], [])
  end.

Definition posix_splitext (p : pystr) : pystr * pystr :=
  let '(dir, name) :=
    match rsplit (chr "/") p with
    | Some (l, r) => (l ++ take 1 r, tail r)
    | None => ([], p)
    end in
  let '(dots, rest) := leading_dots name in
  match rsplit (chr ".") rest with
  | Some (root, ext) => (dir ++ dots ++ root, ext)
  | None => (p, [])
  end.

Definition runtime : PyRuntime :=
  {| nonascii_alnum := latin1_alnum;
     nonascii_lower := map latin1_to_lower;
     format_value := str_of;
     exn_text := str_of_exn;
     basename := posix_basename;
     splitext := posix_splitext;
     json_dump_error := dump_error |}.

Definition midnight : datetime :=
  {| year := 2025; month := 1; day := 2;
     hour := 3; minute := 4; second := 5; microsecond := 0 |}.

(** A clock whose [k]-th reading is [k] microseconds after [midnight]. *)
Definition clock (k : nat) : datetime :=
  {| year := 2025; month := 1; day := 2;
     hour := 3; minute := 4; second := 5; microsecond := N.of_nat k |}.

(** The server right after start, without and with the console. *)
Definition started : state :=
  {| connected_clients_sio := []; gui_app := None; received_data := ∅;
     logged := []; emitted := [] |}.

Definition console : gui :=
  {| current_selected_historical_device_id := None;
     current_selected_live_client_sid := None;
     system_log := []; widget_ops := [] |}.

Definition started_with_console : state :=
  {| connected_clients_sio := []; gui_app := Some console;
     received_data := ∅; logged := []; emitted := [] |}.

(** A clock one second ahead of [clock]. *)
Definition later (k : nat) : datetime :=
  {| year := 2025; month := 1; day := 2;
     hour := 3; minute := 4; second := 6; microsecond := N.of_nat k |}.

(** The registration payload [{"deviceId": "phone1"}]. *)
Definition phone1 : json := JObj [(lit "deviceId", JStr (lit "phone1"))].

(** After handle ["sidA"] has registered as ["phone1"]. *)
Definition one_session : state :=
  (run (@handle_register_device runtime (lit "sidA") (lit "10.0.0.7") phone1)
       clock started).2.

(** After handle ["sidB"] has registered as ["phone1"] too, a second
    later. *)
Definition two_sessions : state :=
  (run (@handle_register_device runtime (lit "sidB") (lit "10.0.0.8") phone1)
       later one_session).2.

(** The server with the console, after handle ["sidA"] has registered as
    ["phone1"] and the operator has selected it in the list of live
    clients. *)
Definition selected_session : state :=
  @steps runtime started_with_console
    [(Register_device (lit "sidA") (lit "10.0.0.7") phone1, clock);
     (Live_client_select (lit "phone1"), later)].
End Cpython.

(** ** Vocabulary of the properties *)

(** The alphabet [[A-Za-z0-9_.-]]. *)
Definition key_char (c : N) : bool :=
  ascii_alnum c || bool_decide (c ∈ [chr "_"; chr "."; chr "-"]).

(** [key] is [raw] with each code point the sanitizer does not keep
    replaced, in place, by an underscore. *)
Definition substituted `{PyRuntime} (raw key : pystr) : Prop :=
  length key = length raw
  ∧ ∀ i c, raw !! i = Some c →
           key !! i = Some (if keeps c then c else chr "_").

(** A deviceId field that is absent, not a string, or a string of fewer
    than five characters. *)
Definition device_id_unusable (field : option json) : bool :=
  match field with
  | None => true
  | Some (JStr s) => (length s <? 5)%nat
  | Some _ => true
  end.

(** A registration payload without a deviceId: a payload that is not a
    dict, a dict without that key, or a dict whose deviceId is not true in
    the Python sense ([None], the empty string, [0], [False], an empty list
    or dict). *)
Definition lacks_device_id (data : json) : bool :=
  match data with
  | JObj items => negb (truthy (default JNull (dict_get items (lit "deviceId"))))
  | _ => true
  end.

(** No session before this position carries [device_id]. *)
Definition no_match (device_id : pystr) (d : pydict client_info) : Prop :=
  Forall (λ entry, json_eq_str (c_id entry.2) device_id = false) d.

(** What the registry keeps true of itself: one entry per handle, each
    entry filed under its own handle, each with a device identifier that is
    true in the Python sense. *)
Definition registry_ok (d : pydict client_info) : Prop :=
  NoDup (dict_keys d)
  ∧ Forall (λ entry, c_sid entry.2 = entry.1 ∧ truthy (c_id entry.2) = true) d.

(** A clock reading whose fields are in the ranges of [datetime], from the
    year 1000 on, where ['%Y'] prints four digits on every platform. *)
Definition valid_datetime (d : datetime) : Prop :=
  1000 ≤ year d ≤ 9999 ∧ 1 ≤ month d ≤ 12 ∧ 1 ≤ day d ≤ 31
  ∧ hour d ≤ 23 ∧ minute d ≤ 59 ∧ second d ≤ 59 ∧ microsecond d ≤ 999999.

(** The events that can change the registry. *)
Definition session_event (e : event) : bool :=
  match e with
  | Disconnect _ _ | Register_device _ _ _ | Device_heartbeat _ _ => true
  | _ => false
  end.

(** The events that can change the store. *)
Definition upload_event (e : event) : bool :=
  match e with
  | Upload_initial_data _ | Upload_command_file _ => true
  | _ => false
  end.

(** The events of an agent that the server answers over the transport, with
    the handle of the agent. *)
Definition answered_handle (e : event) : option pystr :=
  match e with
  | Register_device sid _ _ | Device_heartbeat sid _ => Some sid
  | _ => None
  end.

(** The events of the operator that can send a command. *)
Definition operator_command (e : event) : bool :=
  match e with
  | Command_button _ | Confirmed_button _ true => true
  | _ => false
  end.

(** An initial upload that gets as far as the folder of the device: its
    document is an object whose deviceInfo is absent or an object. *)
Definition reaches_folder (req : initial_request) : bool :=
  match json_data req with
  | Good_json (JObj items) =>
      match default (JObj []) (dict_get items (lit "deviceInfo")) with
      | JObj _ => true
      | _ => false
      end
  | _ => false
  end.

(** The document of an initial upload, when it has one. *)
Definition document (req : initial_request) : json :=
  match json_data req with
  | Good_json data => data
  | _ => JNull
  end.

(** The status code [upload_initial_data] answers with: 400 when the form
    has no [json_data] or one that [json.loads] rejects with a
    [JSONDecodeError]; 500 when [json.loads] raises another exception, when
    the document or its deviceInfo is not an object, or when [json.dump]
    raises; 200 otherwise. *)
Definition initial_upload_verdict `{PyRuntime} (req : initial_request) : N :=
  match json_data req with
  | No_field | Bad_json _ => 400
  | _ =>
      if reaches_folder req && bool_decide (json_dump_error (document req) = None)
      then 200 else 500
  end.

(** A request that brings a file with a file name. *)
Definition has_file (upl : option upload) : bool :=
  match upl with
  | Some {| filename := _ :: _ |} => true
  | _ => false
  end.

(** The events that can change what the console has selected. *)
Definition select_event (e : event) : bool :=
  match e with
  | Historical_device_select _ | Live_client_select _ => true
  | _ => false
  end.

(** Two clock readings within the same second. *)
Definition same_second (t t' : datetime) : Prop :=
  year t = year t' ∧ month t = month t' ∧ day t = day t'
  ∧ hour t = hour t' ∧ minute t = minute t' ∧ second t = second t'.

(** What the console has selected, when there is a console. *)
Definition selection (s : state) : option (option pystr * option pystr) :=
  (λ g, (current_selected_historical_device_id g,
         current_selected_live_client_sid g)) <$> gui_app s.

(** The store with the file [name] written into the folder [key]. *)
Definition with_file (key name : pystr) (c : content)
  (stored : gmap pystr (gmap pystr content))
  : gmap pystr (gmap pystr content) :=
  <[key := <[name := c]> (default ∅ (stored !! key))]> stored.

(** The clock reading [upload_command_file] names the file after: the
    second of the run when the console first logs that a folder was created,
    the first otherwise. *)
Definition name_reading (s : state) (key : pystr) : nat :=
  match gui_app s, folder_at (received_data s) key with
  | Some _, None => 1
  | _, _ => 0
  end.

(** ** Running the model *)

Example splitext_png :
  Cpython.posix_splitext (lit "shots/f.tar.png")
  = (lit "shots/f.tar", lit ".png").
Proof. reflexivity. Qed.

Example splitext_hidden :
  Cpython.posix_splitext (lit ".bashrc") = (lit ".bashrc", []).
Proof. reflexivity. Qed.

Example basename_dir :
  Cpython.posix_basename (lit "a/b/f.png") = lit "f.png".
Proof. reflexivity. Qed.

Example sanitize_ascii :
  @sanitize Cpython.runtime (lit "my phone/1:2") = lit "my_phone_1_2".
Proof. vm_compute. reflexivity. Qed.

Example strftime_compact_ex :
  strftime_compact (Cpython.clock 7) = lit "20250102030405000007".
Proof. vm_compute. reflexivity. Qed.

Example isoformat_ex :
  isoformat Cpython.midnight = lit "2025-01-02T03:04:05"
  /\ isoformat (Cpython.clock 7) = lit "2025-01-02T03:04:05.000007".
Proof. split; vm_compute; reflexivity. Qed.

(** ** The identity sanitizer *)

Section Sanitizer.
Context `{PyRuntime}.

Lemma ascii_digit_keeps c : ascii_digit c = true → keeps c = true.
Proof.
  unfold keeps, isalnum, is_ascii, ascii_alnum, ascii_digit.
  intros [Hlo Hhi]%andb_true_iff.
  assert ((c <? 128) = true) as ->
    by (apply N.ltb_lt; apply N.leb_le in Hhi; lia).
  by rewrite Hlo, Hhi, !orb_true_r.
Qed.

Lemma zpad_digits w n : forallb ascii_digit (zpad w n) = true.
Proof.
  revert n. induction w as [|w IH]; intros n; [done|].
  cbn [zpad]. rewrite forallb_app, IH. cbn [forallb andb].
  assert (n mod 10 < 10) as Hlt by (apply N.mod_lt; lia).
  unfold ascii_digit. rewrite andb_true_r.
  generalize dependent (n mod 10). intros d Hd.
  apply andb_true_iff; split; apply N.leb_le; lia.
Qed.

Lemma forallb_impl {A} (p q : A → bool) l :
  (∀ x, p x = true → q x = true) →
  forallb p l = true → forallb q l = true.
Proof.
  intros Hpq. induction l as [|x l IH]; [done|]. simpl.
  intros [Hx Hl]%andb_true_iff. by rewrite (Hpq _ Hx), IH.
Qed.

Lemma strftime_compact_keeps t : forallb keeps (strftime_compact t) = true.
Proof.
  apply (forallb_impl ascii_digit); [apply ascii_digit_keeps|].
  unfold strftime_compact. by rewrite !forallb_app, !zpad_digits.
Qed.

Lemma sanitize_char_keeps c : keeps (sanitize_char c) = true.
Proof.
  unfold sanitize_char. destruct (keeps c) eqn:E; [done|].
  unfold keeps. apply orb_true_iff; right.
  apply bool_decide_eq_true. set_solver.
Qed.

Lemma sanitize_keeps raw : forallb keeps (sanitize raw) = true.
Proof.
  induction raw as [|c raw IH]; [done|]. simpl.
  by rewrite sanitize_char_keeps, IH.
Qed.

Lemma sanitize_substituted raw : substituted raw (sanitize raw).
Proof.
  split; [apply length_map|].
  intros i c Hi. unfold sanitize. rewrite list_lookup_fmap, Hi. done.
Qed.

Lemma sanitize_nonempty raw : raw ≠ [] → sanitize raw ≠ [].
Proof. by destruct raw. Qed.

(** Neither path separator is kept. *)
Lemma separator_not_kept : keeps (chr "/") = false ∧ keeps (chr "\") = false.
Proof. split; vm_compute; reflexivity. Qed.

(** On ASCII the kept code points are those of [[A-Za-z0-9_.-]]. *)
Lemma keeps_ascii c : is_ascii c = true → keeps c = key_char c.
Proof.
  intros Hc. unfold keeps, key_char, isalnum. rewrite Hc. f_equal.
  apply bool_decide_ext. rewrite !elem_of_cons. tauto.
Qed.

Lemma sanitize_ascii_alphabet raw :
  forallb is_ascii raw = true → forallb key_char (sanitize raw) = true.
Proof.
  induction raw as [|c raw IH]; [done|]. simpl.
  intros [Hc Hraw]%andb_true_iff. rewrite (IH Hraw), andb_true_r.
  unfold sanitize_char. destruct (keeps c) eqn:E.
  - by rewrite <- keeps_ascii.
  - done.
Qed.

Lemma initial_key_returns raw clk n s :
  ∃ key n',
    initial_key raw clk (n, s) = (Ret key, (n', s))
    ∧ (key = sanitize raw
       ∨ key = lit "unidentified_device_" ++ strftime_compact (clk n))
    ∧ key ≠ [] ∧ forallb keeps key = true.
Proof.
  unfold initial_key. destruct (degenerate (sanitize raw)) eqn:E.
  - eexists _, _. split; [reflexivity|]. split; [by right|].
    split; [done|]. rewrite forallb_app, strftime_compact_keeps.
    rewrite andb_true_r. vm_compute. reflexivity.
  - eexists _, _. split; [reflexivity|]. split; [by left|].
    split; [|apply sanitize_keeps].
    intros Hk. unfold degenerate in E. rewrite Hk in E. done.
Qed.

(** C1, amended.  A non-empty raw identifier is accepted by both upload
    endpoints.  The key of [upload_command_file] is its sanitized form;
    the key of [upload_initial_data] is its sanitized form or a generated
    ["unidentified_device_<timestamp>"].  Either key is non-empty and holds
    only code points the sanitizer keeps: those [str.isalnum] accepts,
    which are not all ASCII, and ["_"], ["-"], ["."].  The sanitized form
    has every other code point replaced in place by ["_"], and lies within
    [[A-Za-z0-9_.-]] when the raw identifier is ASCII. *)
Theorem sanitized_key_alphabet (raw : pystr) :
  raw ≠ [] →
  command_file_key (Some raw) = Some (sanitize raw)
  ∧ (∀ clk n s, ∃ key n',
       initial_key raw clk (n, s) = (Ret key, (n', s))
       ∧ (key = sanitize raw
          ∨ key = lit "unidentified_device_" ++ strftime_compact (clk n))
       ∧ key ≠ [] ∧ forallb keeps key = true)
  ∧ sanitize raw ≠ []
  ∧ forallb keeps (sanitize raw) = true
  ∧ substituted raw (sanitize raw)
  ∧ (forallb is_ascii raw = true → forallb key_char (sanitize raw) = true).
Proof.
  intros Hraw. split_and!.
  - destruct raw; [done | reflexivity].
  - intros clk n s. apply initial_key_returns.
  - by apply sanitize_nonempty.
  - apply sanitize_keeps.
  - apply sanitize_substituted.
  - apply sanitize_ascii_alphabet.
Qed.
End Sanitizer.

(** The theorem at the one-letter identifier U+00E9. *)
Lemma sanitized_key_alphabet_witness :
  [233] ≠ []
  ∧ @command_file_key Cpython.runtime (Some [233]) = Some [233]
  ∧ forallb (@keeps Cpython.runtime) [233] = true.
Proof.
  assert ([233] ≠ @nil N) as Hne by discriminate.
  split; [exact Hne|].
  destruct (@sanitized_key_alphabet Cpython.runtime [233] Hne)
    as (Hkey & _ & _ & Hkeeps & _).
  split; [exact Hkey | exact Hkeeps].
Defined.

(** C1 as stated fails: U+00E9 is alphanumeric for [str.isalnum], so the key
    of an upload with deviceId ["é"] is that letter, which is outside
    [[A-Za-z0-9_.-]]. *)
Lemma sanitized_key_outside_ascii_alphabet :
  @command_file_key Cpython.runtime (Some [233]) = Some [233]
  ∧ forallb key_char [233] = false.
Proof. split; vm_compute; reflexivity. Qed.

(** ** The raw identifier of an initial upload *)

Lemma unusable_not_accepted (field : option json) :
  device_id_unusable field = true →
  accepted_device_id (default JNull field) = None.
Proof.
  destruct field as [[]|]; simpl; try done.
  intros ->. by rewrite orb_true_r.
Qed.

Lemma usable_accepted (s : pystr) :
  (5 ≤ length s)%nat → accepted_device_id (JStr s) = Some s.
Proof.
  intros Hlen. unfold accepted_device_id, truthy.
  destruct s as [|c s]; [simpl in Hlen; lia|].
  rewrite bool_decide_eq_false_2 by done.
  simpl negb. rewrite orb_false_l.
  destruct (Nat.ltb_spec (length (c :: s)) 5); [lia | done].
Qed.

Section InitialUpload.
Context `{PyRuntime}.

(** C10.  When the deviceId of an initial upload is absent, not a string
    or a string of fewer than five characters, the raw identifier is
    ["<model>_<deviceName>"] built from the deviceInfo dict, with
    ["unknown_model"] and ["unknown_device"] for an absent field; the
    supplied deviceId only goes into the warning that is logged. *)
Theorem fallback_identifier (items info : pydict json) clk n s :
  default (JObj []) (dict_get items (lit "deviceInfo")) = JObj info →
  device_id_unusable (dict_get items (lit "deviceId")) = true →
  raw_device_id (JObj items) clk (n, s)
  = (Ret (fmt (default (JStr (lit "unknown_model"))
                 (dict_get info (lit "model")))
          ++ lit "_"
          ++ fmt (default (JStr (lit "unknown_device"))
                    (dict_get info (lit "deviceName")))),
     (n, record WARNING
           (Invalid_device_id
              (default JNull (dict_get items (lit "deviceId")))) s)).
Proof.
  intros Hinfo Hid.
  unfold raw_device_id, mbind, M_bind, bind, expect, json_get.
  rewrite Hinfo. cbn [ret].
  rewrite (unusable_not_accepted _ Hid). reflexivity.
Qed.

(** A deviceId that is a string of five characters or more is taken as it
    is. *)
Lemma supplied_identifier (items : pydict json) (id : pystr) clk n s :
  dict_get items (lit "deviceId") = Some (JStr id) →
  (5 ≤ length id)%nat →
  raw_device_id (JObj items) clk (n, s) = (Ret id, (n, s)).
Proof.
  intros Hid Hlen.
  unfold raw_device_id, mbind, M_bind, bind, expect, json_get.
  rewrite Hid. cbn -[accepted_device_id].
  rewrite (usable_accepted _ Hlen). reflexivity.
Qed.
End InitialUpload.

(** The theorem at the payload
    [{"deviceId": "ab", "deviceInfo": {"model": "Pixel 7"}}]. *)
Lemma fallback_identifier_witness :
  @raw_device_id Cpython.runtime
    (JObj [(lit "deviceId", JStr (lit "ab"));
           (lit "deviceInfo", JObj [(lit "model", JStr (lit "Pixel 7"))])])
    Cpython.clock (O, Cpython.started)
  = (Ret (lit "Pixel 7_unknown_device"),
     (O, record WARNING (Invalid_device_id (JStr (lit "ab")))
           Cpython.started)).
Proof.
  exact (@fallback_identifier Cpython.runtime
           [(lit "deviceId", JStr (lit "ab"));
            (lit "deviceInfo", JObj [(lit "model", JStr (lit "Pixel 7"))])]
           [(lit "model", JStr (lit "Pixel 7"))]
           Cpython.clock O Cpython.started eq_refl eq_refl).
Defined.

(** ** Dict lemmas *)

Section DictLemmas.
Context {V : Type}.
Implicit Types (d : pydict V) (k : pystr).

Lemma str_eqb_eq (s t : pystr) : str_eqb s t = true ↔ s = t.
Proof. unfold str_eqb. apply bool_decide_eq_true. Qed.

Lemma str_eqb_refl (s : pystr) : str_eqb s s = true.
Proof. by apply str_eqb_eq. Qed.

Lemma str_eqb_ne (s t : pystr) : s ≠ t → str_eqb s t = false.
Proof. unfold str_eqb. apply bool_decide_eq_false_2. Qed.

Lemma dict_get_alter_eq (f : V → V) d k :
  dict_get (dict_alter f d k) k = f <$> dict_get d k.
Proof.
  induction d as [|[k' v] d IH]; [done|]. simpl.
  destruct (str_eqb k' k) eqn:E; simpl; rewrite E; [done | apply IH].
Qed.

Lemma dict_get_alter_ne (f : V → V) d k k' :
  k' ≠ k → dict_get (dict_alter f d k) k' = dict_get d k'.
Proof.
  intros Hne. induction d as [|[k0 v] d IH]; [done|]. simpl.
  destruct (str_eqb k0 k) eqn:E; simpl.
  - apply str_eqb_eq in E as ->. by rewrite (str_eqb_ne k k').
  - by rewrite IH.
Qed.

Lemma dict_keys_alter (f : V → V) d k :
  dict_keys (dict_alter f d k) = dict_keys d.
Proof.
  unfold dict_keys. induction d as [|[k' v] d IH]; [done|]. simpl.
  destruct (str_eqb k' k); simpl; [done | by rewrite IH].
Qed.

Lemma dict_set_fresh d k v :
  dict_get d k = None → dict_set d k v = d ++ [(k, v)].
Proof.
  induction d as [|[k' v'] d IH]; [done|]. simpl.
  destruct (str_eqb k' k); [done|]. intros Hd. by rewrite IH.
Qed.

Lemma dict_get_set_eq d k v : dict_get (dict_set d k v) k = Some v.
Proof.
  induction d as [|[k' v'] d IH]; simpl.
  - by rewrite str_eqb_refl.
  - destruct (str_eqb k' k) eqn:E; simpl; by rewrite E.
Qed.

Lemma dict_get_set_ne d k k' v :
  k' ≠ k → dict_get (dict_set d k v) k' = dict_get d k'.
Proof.
  intros Hne. induction d as [|[k0 v0] d IH]; simpl.
  - by rewrite str_eqb_ne.
  - destruct (str_eqb k0 k) eqn:E; simpl; [|by rewrite IH].
    apply str_eqb_eq in E as ->. by rewrite (str_eqb_ne k k').
Qed.
End DictLemmas.

(** ** The session registry *)

(** Unfolding a handler run down to the state it reaches. *)
Ltac run_handler :=
  unfold run, if_gui, add_system_log, widget, logger, emit, expect;
  unfold mbind, M_bind, mret, M_ret, bind, try_except, ret, raise, get,
    now, modify;
  cbn [fst snd].

(** C8.  A heartbeat on a handle that is not in the registry logs a warning
    and emits [request_registration_info] with an empty payload to that same
    handle, and nothing else: the registry, and so the set of sessions, is
    the one before.  The handler has no return value; that the handle is
    unknown is the outcome [false] of its membership test. *)
Theorem heartbeat_unknown_requests_registration sid data clk s :
  dict_mem (connected_clients_sio s) sid = false →
  ∃ s',
    run (handle_device_heartbeat sid data) clk s = (Ret tt, s')
    ∧ connected_clients_sio s' = connected_clients_sio s
    ∧ emitted s'
      = emitted s ++ [{| ev_name := lit "request_registration_info";
                         ev_data := JObj []; ev_to := sid |}]
    ∧ logged s' = logged s ++ [(WARNING, Heartbeat_from_unknown sid data)]
    ∧ gui_app s' = gui_app s
    ∧ received_data s' = received_data s.
Proof.
  intros Hmem. unfold handle_device_heartbeat. run_handler.
  rewrite Hmem. eexists. split; [reflexivity|]. done.
Qed.

(** The theorem at a heartbeat right after start. *)
Lemma heartbeat_unknown_requests_registration_witness :
  ∃ s',
    run (handle_device_heartbeat (lit "sidA") JNull) Cpython.clock
      Cpython.started = (Ret tt, s')
    ∧ connected_clients_sio s' = []
    ∧ emitted s'
      = [{| ev_name := lit "request_registration_info";
            ev_data := JObj []; ev_to := lit "sidA" |}].
Proof.
  destruct (heartbeat_unknown_requests_registration (lit "sidA") JNull
              Cpython.clock Cpython.started eq_refl)
    as (s' & Hrun & Hreg & Hsent & _).
  exists s'. split; [exact Hrun|]. split; [exact Hreg | exact Hsent].
Defined.

(** C6.  A heartbeat on a registered handle rewrites the [last_seen] of that
    session with the clock reading and nothing else: its sid, device
    identifier, display name, platform, origin address and connect time,
    every other session, the order of the registry, and what has been
    emitted and stored are the ones before. *)
Theorem heartbeat_updates_last_seen_only sid data clk s info :
  dict_get (connected_clients_sio s) sid = Some info →
  ∃ s' info',
    run (handle_device_heartbeat sid data) clk s = (Ret tt, s')
    ∧ dict_get (connected_clients_sio s') sid = Some info'
    ∧ c_last_seen info' = isoformat (clk O)
    ∧ c_sid info' = c_sid info
    ∧ c_id info' = c_id info
    ∧ c_name_display info' = c_name_display info
    ∧ c_platform info' = c_platform info
    ∧ c_ip info' = c_ip info
    ∧ c_connected_at info' = c_connected_at info
    ∧ (∀ sid', sid' ≠ sid →
         dict_get (connected_clients_sio s') sid'
         = dict_get (connected_clients_sio s) sid')
    ∧ dict_keys (connected_clients_sio s') = dict_keys (connected_clients_sio s)
    ∧ emitted s' = emitted s
    ∧ received_data s' = received_data s.
Proof.
  destruct s as [clients console stored lines sent]; cbn.
  intros Hget. unfold handle_device_heartbeat. run_handler.
  unfold dict_mem. cbn. rewrite Hget.
  destruct console as [g|]; cbn.
  all: eexists _, (set_last_seen (isoformat (clk O)) info).
  all: split; [reflexivity|]; cbn.
  all: rewrite dict_get_alter_eq, Hget; split_and!; try done.
  all: try (intros sid' Hne; by apply dict_get_alter_ne).
  all: apply dict_keys_alter.
Qed.

(** The theorem at a heartbeat of the one registered handle. *)
Lemma heartbeat_updates_last_seen_only_witness :
  ∃ s' info',
    run (handle_device_heartbeat (lit "sidA") JNull) Cpython.later
      Cpython.one_session = (Ret tt, s')
    ∧ dict_get (connected_clients_sio s') (lit "sidA") = Some info'
    ∧ c_last_seen info' = lit "2025-01-02T03:04:06"
    ∧ c_connected_at info' = lit "2025-01-02T03:04:05".
Proof.
  destruct (heartbeat_updates_last_seen_only (lit "sidA") JNull Cpython.later
              Cpython.one_session _ eq_refl)
    as (s' & info' & Hrun & Hget & Hseen & _ & _ & _ & _ & _ & Hconn & _).
  exists s', info'. split; [exact Hrun|]. split; [exact Hget|].
  split; [exact Hseen | exact Hconn].
Defined.

Section Registration.
Context `{PyRuntime}.

(** C5.  A registration whose payload has no deviceId (none at all, or one
    that is not true in the Python sense, which the source reports as
    missing as well) is turned down: the registry is the one before, and
    the one thing sent is a [registration_failed] notice to the handle that
    asked.  Nothing is sent that closes the connection. *)
Theorem registration_without_device_id_rejected sid ip data clk s :
  lacks_device_id data = true →
  ∃ notice s',
    run (handle_register_device sid ip data) clk s = (Ret tt, s')
    ∧ connected_clients_sio s' = connected_clients_sio s
    ∧ emitted s'
      = emitted s ++ [{| ev_name := lit "registration_failed";
                         ev_data := JObj [(lit "message", JStr notice)];
                         ev_to := sid |}]
    ∧ gui_app s' = gui_app s
    ∧ received_data s' = received_data s.
Proof.
  destruct s as [clients console stored lines sent]; cbn.
  intros Hlacks. unfold handle_register_device. run_handler.
  destruct data as [| | | | |?|items]; cbn in *;
    try (eexists _, _; split; [reflexivity|]; done).
  apply negb_true_iff in Hlacks. rewrite Hlacks.
  cbn. eexists _, _; split; [reflexivity|]; done.
Qed.

(** A handle that is not in the registry and registers with a deviceId goes
    last in the registry's order. *)
Lemma registration_appends sid ip items device_identifier clk s :
  dict_get items (lit "deviceId") = Some device_identifier →
  truthy device_identifier = true →
  dict_get (connected_clients_sio s) sid = None →
  ∃ info,
    connected_clients_sio
      (run (handle_register_device sid ip (JObj items)) clk s).2
    = connected_clients_sio s ++ [(sid, info)]
    ∧ c_id info = device_identifier
    ∧ c_connected_at info = isoformat (clk O).
Proof.
  destruct s as [clients console stored lines sent]; cbn.
  intros Hid Htrue Hfresh. unfold handle_register_device. run_handler.
  cbn. rewrite Hid. cbn. rewrite Htrue. cbn.
  destruct console as [g|]; cbn.
  - destruct (selected_is _ _); cbn;
      rewrite (dict_set_fresh _ _ _ Hfresh); eexists; done.
  - rewrite (dict_set_fresh _ _ _ Hfresh); eexists; done.
Qed.
End Registration.

(** Payloads the source reports as lacking a deviceId: none, [None], the
    empty string, zero. *)
Example payloads_lacking_device_id :
  Forall (λ data, lacks_device_id data = true)
    [JObj [(lit "deviceName", JStr (lit "x"))];
     JObj [(lit "deviceId", JNull)];
     JObj [(lit "deviceId", JStr [])];
     JObj [(lit "deviceId", JInt 0)];
     JStr (lit "phone1")]
  ∧ lacks_device_id Cpython.phone1 = false.
Proof. split; [repeat constructor | reflexivity]. Qed.

(** The theorem at the payload [{"deviceName": "x"}]. *)
Lemma registration_without_device_id_rejected_witness :
  ∃ notice s',
    run (@handle_register_device Cpython.runtime (lit "sidA") (lit "10.0.0.7")
           (JObj [(lit "deviceName", JStr (lit "x"))]))
        Cpython.clock Cpython.one_session = (Ret tt, s')
    ∧ connected_clients_sio s' = connected_clients_sio Cpython.one_session
    ∧ emitted s'
      = emitted Cpython.one_session
        ++ [{| ev_name := lit "registration_failed";
               ev_data := JObj [(lit "message", JStr notice)];
               ev_to := lit "sidA" |}].
Proof.
  destruct (@registration_without_device_id_rejected Cpython.runtime
              (lit "sidA") (lit "10.0.0.7")
              (JObj [(lit "deviceName", JStr (lit "x"))])
              Cpython.clock Cpython.one_session eq_refl)
    as (notice & s' & Hrun & Hreg & Hsent & _).
  exists notice, s'. split; [exact Hrun|]. split; [exact Hreg | exact Hsent].
Defined.

(** ** The command dispatcher *)

(** C4.  [send_command_to_client] answers whether the handle is in the
    registry.  When it is not, nothing is sent; when it is, exactly one event
    is sent, to that handle, carrying the command name and the argument bag
    as given (an empty dict when the caller passes none).  The registry is
    the one before in both cases. *)
Theorem dispatch_only_to_registered target_sid command_name args clk s :
  ∃ s',
    run (send_command_to_client target_sid command_name args) clk s
    = (Ret (dict_mem (connected_clients_sio s) target_sid), s')
    ∧ emitted s'
      = emitted s
        ++ (if dict_mem (connected_clients_sio s) target_sid
            then [{| ev_name := command_name;
                     ev_data := default (JObj []) args;
                     ev_to := target_sid |}]
            else [])
    ∧ connected_clients_sio s' = connected_clients_sio s
    ∧ received_data s' = received_data s.
Proof.
  destruct s as [clients console stored lines sent].
  unfold send_command_to_client, dict_mem. run_handler. cbn.
  destruct (dict_get clients target_sid) as [info|]; cbn.
  - destruct console; cbn; eexists; (split; [reflexivity|]); done.
  - destruct console; cbn; eexists; (split; [reflexivity|]);
      by rewrite app_nil_r.
Qed.

Example dispatch_to_unknown_handle :
  (run (send_command_to_client (lit "sidZ") (lit "take_screenshot")
          (Some (JObj [])))
       Cpython.clock Cpython.one_session).1 = Ret false.
Proof. vm_compute. reflexivity. Qed.

Example dispatch_to_registered_handle :
  let '(r, s') :=
    run (send_command_to_client (lit "sidA") (lit "take_screenshot")
           (Some (JObj [])))
        Cpython.clock Cpython.one_session in
  r = Ret true
  ∧ last (emitted s')
    = Some {| ev_name := lit "take_screenshot"; ev_data := JObj [];
              ev_to := lit "sidA" |}.
Proof. vm_compute. split; reflexivity. Qed.

(** ** Lookup by device identifier *)

Lemma find_sid_none d device_id :
  find_sid_by_device_id d device_id = None ↔ no_match device_id d.
Proof.
  unfold no_match. induction d as [|[sid info] d IH]; simpl.
  - split; [constructor | done].
  - destruct (json_eq_str (c_id info) device_id) eqn:E.
    + split; [done|]. intros Hall. apply Forall_cons in Hall as [Hhd _].
      simpl in Hhd. congruence.
    + rewrite IH. split.
      * intros Hall. by constructor.
      * intros Hall. by apply Forall_cons in Hall as [_ Htl].
Qed.

Lemma find_sid_some d device_id sid :
  find_sid_by_device_id d device_id = Some sid
  ↔ ∃ before info after,
      d = before ++ (sid, info) :: after
      ∧ json_eq_str (c_id info) device_id = true
      ∧ no_match device_id before.
Proof.
  unfold no_match. induction d as [|[sid0 info0] d IH]; simpl.
  - split; [done|]. intros (before & info & after & Hd & _).
    by destruct before.
  - destruct (json_eq_str (c_id info0) device_id) eqn:E.
    + split.
      * intros [= <-]. exists [], info0, d. split_and!; [done..|constructor].
      * intros (before & info & after & Hd & Hinfo & Hbefore).
        destruct before as [|[sid1 info1] before]; simplify_eq/=.
        { done. }
        apply Forall_cons in Hbefore as [Hhd _]. simpl in Hhd. congruence.
    + rewrite IH. split.
      * intros (before & info & after & -> & Hinfo & Hbefore).
        exists ((sid0, info0) :: before), info, after.
        split_and!; [done..|]. by constructor.
      * intros (before & info & after & Hd & Hinfo & Hbefore).
        destruct before as [|[sid1 info1] before]; simplify_eq/=.
        { congruence. }
        apply Forall_cons in Hbefore as [_ Htl]. by exists before, info, after.
Qed.

(** C3, amended.  The scan by device identifier returns the handle of the
    first session, in the registry's order, that carries the identifier: the
    handle that entered the registry first among those that match.  It
    returns nothing exactly when no session carries the identifier. *)
Theorem lookup_returns_first_match (d : pydict client_info)
  (device_id : pystr) :
  (∀ sid,
     find_sid_by_device_id d device_id = Some sid
     ↔ ∃ before info after,
         d = before ++ (sid, info) :: after
         ∧ json_eq_str (c_id info) device_id = true
         ∧ no_match device_id before)
  ∧ (find_sid_by_device_id d device_id = None ↔ no_match device_id d).
Proof. split; [intros sid; apply find_sid_some | apply find_sid_none]. Qed.

(** C3 as stated fails.  Handle ["sidA"] registers as ["phone1"], and a
    second later so does handle ["sidB"]: the scan for ["phone1"] returns
    ["sidA"], the session registered first, not the most recent one. *)
Lemma lookup_not_most_recent :
  let registry := connected_clients_sio Cpython.two_sessions in
  dict_keys registry = [lit "sidA"; lit "sidB"]
  ∧ (c_connected_at <$> dict_get registry (lit "sidA"))
    = Some (lit "2025-01-02T03:04:05")
  ∧ (c_connected_at <$> dict_get registry (lit "sidB"))
    = Some (lit "2025-01-02T03:04:06")
  ∧ (c_id <$> dict_get registry (lit "sidB")) = Some (JStr (lit "phone1"))
  ∧ find_sid_by_device_id registry (lit "phone1") = Some (lit "sidA")
  ∧ find_sid_by_device_id registry (lit "phone1") ≠ Some (lit "sidB").
Proof. vm_compute. split_and!; done. Qed.

(** ** The response and upload correlator *)

(** Case analysis on whatever the run still branches on. *)
Ltac case_run :=
  repeat (cbn -[command_file_name insert lookup];
          match goal with
          | |- context [match ?x with _ => _ end] =>
              lazymatch x with
              | context [match _ with _ => _ end] => fail
              | _ => destruct x eqn:?
              end
          end);
  cbn -[command_file_name insert lookup].

Lemma handle_command_response_effect sid items clk s :
  let device := resolve_device_id (connected_clients_sio s) sid in
  let command :=
    default (JStr (lit "unknown_command")) (dict_get items (lit "command")) in
  let status :=
    default (JStr (lit "unknown")) (dict_get items (lit "status")) in
  let payload := default (JObj []) (dict_get items (lit "payload")) in
  (∀ info, dict_get (connected_clients_sio s) sid = Some info →
           device = c_id info)
  ∧ (dict_get (connected_clients_sio s) sid = None →
     device = JStr (lit "SID_" ++ sid))
  ∧ ∃ r s',
      run (handle_command_response sid (JObj items)) clk s = (r, s')
      ∧ (∃ rest,
           logged s'
           = logged s
             ++ (INFO, Response_for command device status
                         (payload_keys payload)) :: rest)
      ∧ (∀ g, gui_app s = Some g →
           ∃ g' rest,
             gui_app s' = Some g'
             ∧ system_log g'
               = system_log g
                 ++ {| at_time := clk O; is_error := false;
                       text := Response_from command device status |}
                    :: rest)
      ∧ connected_clients_sio s' = connected_clients_sio s
      ∧ received_data s' = received_data s
      ∧ emitted s' = emitted s
      ∧ selection s' = selection s.
Proof.
  intros device command status payload.
  split; [|split].
  - intros info Hget. unfold device, resolve_device_id. by rewrite Hget.
  - intros Hget. unfold device, resolve_device_id. by rewrite Hget.
  - subst device command status payload.
    destruct s as [clients console stored lines sent].
    unfold handle_command_response, display_command_response,
      display_device_details.
    run_handler. cbn.
    generalize (resolve_device_id clients sid) as device.
    generalize (default (JStr (lit "unknown_command"))
                  (dict_get items (lit "command"))) as command.
    generalize (default (JStr (lit "unknown"))
                  (dict_get items (lit "status"))) as status.
    generalize (default (JObj []) (dict_get items (lit "payload")))
      as payload.
    intros payload status command device.
    case_run.
    all: eexists _, _; split; [reflexivity|]; cbn.
    all: split; [rewrite <- ?app_assoc; cbn; eexists; reflexivity|].
    all: split; [|done].
    all: intros g' Hg'; simplify_eq.
    all: eexists _, _; split; [reflexivity|].
    all: cbn; rewrite <- ?app_assoc; cbn; reflexivity.
Qed.

(** C7, for event data that is a dict.  A command response is filed under
    the device identifier of the session registered for the handle, or under
    ["SID_<handle>"] when the handle is not in the registry.  In both cases
    the run records it: the
    log gains the response with that identifier, the command name and the
    status, and so does the system log of the console when one is attached.
    The registry is the one before. *)
Theorem response_is_recorded sid items clk s :
  let device := resolve_device_id (connected_clients_sio s) sid in
  let command :=
    default (JStr (lit "unknown_command")) (dict_get items (lit "command")) in
  let status :=
    default (JStr (lit "unknown")) (dict_get items (lit "status")) in
  let payload := default (JObj []) (dict_get items (lit "payload")) in
  (∀ info, dict_get (connected_clients_sio s) sid = Some info →
           device = c_id info)
  ∧ (dict_get (connected_clients_sio s) sid = None →
     device = JStr (lit "SID_" ++ sid))
  ∧ ∃ r s',
      run (handle_command_response sid (JObj items)) clk s = (r, s')
      ∧ (∃ rest,
           logged s'
           = logged s
             ++ (INFO, Response_for command device status
                         (payload_keys payload)) :: rest)
      ∧ (∀ g, gui_app s = Some g →
           ∃ g' rest,
             gui_app s' = Some g'
             ∧ system_log g'
               = system_log g
                 ++ {| at_time := clk O; is_error := false;
                       text := Response_from command device status |}
                    :: rest)
      ∧ connected_clients_sio s' = connected_clients_sio s.
Proof.
  intros device command status payload.
  destruct (handle_command_response_effect sid items clk s)
    as (Hknown & Hunknown & r & s' & Hrun & Hlog & Hgui & Hreg & _).
  split; [exact Hknown|]. split; [exact Hunknown|].
  exists r, s'. done.
Qed.


Section Correlation.
Context `{PyRuntime}.

Lemma with_file_after_makedirs (key name : pystr) (c : content)
  (stored : gmap pystr (gmap pystr content)) :
  stored !! key = None →
  with_file key name c (<[key := ∅]> stored) = with_file key name c stored.
Proof.
  intros Hnone. unfold with_file.
  by rewrite lookup_insert_eq, insert_insert_eq, Hnone.
Qed.

Lemma with_file_lookup (key name : pystr) (c : content)
  (stored : gmap pystr (gmap pystr content)) :
  ∃ folder,
    with_file key name c stored !! key = Some folder
    ∧ folder !! name = Some c.
Proof.
  unfold with_file. eexists. rewrite lookup_insert_eq.
  split; [reflexivity|]. apply lookup_insert_eq.
Qed.

Lemma command_file_key_nonempty (device_id : pystr) :
  device_id ≠ [] →
  command_file_key (Some device_id) = Some (sanitize device_id).
Proof. by destruct device_id. Qed.

(** A file delivery that carries a deviceId and a file is stored under the
    sanitized identifier, and touches neither the registry nor the
    transport. *)
Lemma upload_command_file_effect req clk s device_id name bytes :
  deviceId req = Some device_id → device_id ≠ [] →
  file req = Some {| filename := name; body := bytes |} → name ≠ [] →
  let key := sanitize device_id in
  let command_ref := default (lit "unknown_cmd_ref") (commandRef req) in
  let new_filename :=
    command_file_name command_ref name (clk (name_reading s key)) in
  ∃ s',
    run (upload_command_file req) clk s
    = (Ret {| code := 200; status := lit "success";
              reply := lit "File received by C2";
              filename_on_server := Some new_filename |}, s')
    ∧ received_data s'
      = with_file key new_filename (Uploaded bytes) (received_data s)
    ∧ (∃ rest,
         logged s' = logged s ++ rest
         ∧ (INFO, Saved_command_file new_filename key) ∈ rest)
    ∧ connected_clients_sio s' = connected_clients_sio s
    ∧ emitted s' = emitted s
    ∧ selection s' = selection s.
Proof.
  intros Hid Hne Hfile Hname key command_ref new_filename.
  subst new_filename command_ref key. unfold name_reading.
  destruct s as [clients console stored lines sent].
  destruct req as [dev ref upl]. cbn in Hid, Hfile. subst dev upl.
  destruct name as [|n0 name]; [done|].
  unfold upload_command_file, display_device_details,
    refresh_historical_device_list, makedirs, save, folder_at.
  cbn [deviceId commandRef file].
  rewrite (command_file_key_nonempty _ Hne).
  generalize (sanitize device_id) as k. intros k.
  run_handler. cbn -[command_file_name insert lookup].
  destruct console as [[hist live slog ops]|]; case_run.
  all: eexists; split; [reflexivity|]; cbn -[command_file_name insert lookup].
  all: split;
    [unfold with_file;
     repeat match goal with
            | Hk : ?m !! ?x = _ |- context [?m !! ?x] => rewrite Hk
            end;
     cbn -[command_file_name insert lookup];
     rewrite ?lookup_insert_eq, ?insert_insert_eq;
     repeat match goal with
            | Hk : ?m !! ?x = _ |- context [?m !! ?x] => rewrite Hk
            end;
     done|].
  all: split; [|done].
  all: eexists; rewrite <- !app_assoc; split; [reflexivity|].
  all: rewrite !elem_of_app, !list_elem_of_singleton; tauto.
Qed.

Lemma name_reading_same s s' key :
  selection s' = selection s →
  received_data s' = received_data s →
  name_reading s' key = name_reading s key.
Proof.
  unfold selection, name_reading. intros Hsel ->.
  by destruct (gui_app s'), (gui_app s).
Qed.

(** C2.  A file delivery for a device, under a key that names a folder of
    the store, and a command response reach the same state of the store, the
    registry, the transport and the console's selection in either order of
    arrival.  In both orders the file is in the folder of
    the device's sanitized identifier, under the same name, and is answered
    with that name; and in both orders the log holds the record of the
    stored file and the record of the response with its device, command
    and status.  (Each event brings its own clock readings; the order of
    the lines in the log follows the order of arrival.) *)
Theorem delivery_and_response_commute
  req sid items clk_file clk_response s device_id name bytes :
  deviceId req = Some device_id → device_id ≠ [] →
  names_entry (sanitize device_id) = true →
  file req = Some {| filename := name; body := bytes |} → name ≠ [] →
  let response := handle_command_response sid (JObj items) in
  let after_file := run (upload_command_file req) clk_file s in
  let after_response := run response clk_response s in
  let file_first := (run response clk_response after_file.2).2 in
  let response_last_reply :=
    (run (upload_command_file req) clk_file after_response.2).1 in
  let response_first :=
    (run (upload_command_file req) clk_file after_response.2).2 in
  let key := sanitize device_id in
  let recorded :=
    (INFO,
     Response_for
       (default (JStr (lit "unknown_command"))
          (dict_get items (lit "command")))
       (resolve_device_id (connected_clients_sio s) sid)
       (default (JStr (lit "unknown")) (dict_get items (lit "status")))
       (payload_keys
          (default (JObj []) (dict_get items (lit "payload"))))) in
  received_data file_first = received_data response_first
  ∧ connected_clients_sio file_first = connected_clients_sio response_first
  ∧ emitted file_first = emitted response_first
  ∧ selection file_first = selection response_first
  ∧ (∃ stored_name folder,
       received_data file_first !! key = Some folder
       ∧ folder !! stored_name = Some (Uploaded bytes)
       ∧ filename_on_server <$> after_file.1 = Ret (Some stored_name)
       ∧ filename_on_server <$> response_last_reply
         = Ret (Some stored_name)
       ∧ (INFO, Saved_command_file stored_name key) ∈ logged file_first
       ∧ (INFO, Saved_command_file stored_name key)
         ∈ logged response_first)
  ∧ recorded ∈ logged file_first
  ∧ recorded ∈ logged response_first.
Proof.
  intros Hid Hne _ Hfile Hname.
  destruct (upload_command_file_effect req clk_file s device_id name bytes
              Hid Hne Hfile Hname)
    as (s1 & Hrun1 & Hst1 & (rest1 & Hlog1 & Hin1) & Hreg1 & Hem1 & Hsel1).
  destruct (handle_command_response_effect sid items clk_response s1)
    as (_ & _ & r2 & s2 & Hrun2 & (rest2 & Hlog2) & _
        & Hreg2 & Hst2 & Hem2 & Hsel2).
  destruct (handle_command_response_effect sid items clk_response s)
    as (_ & _ & r1' & s1' & Hrun1' & (rest1' & Hlog1') & _
        & Hreg1' & Hst1' & Hem1' & Hsel1').
  destruct (upload_command_file_effect req clk_file s1' device_id name bytes
              Hid Hne Hfile Hname)
    as (s2' & Hrun2' & Hst2' & (rest2' & Hlog2' & Hin2')
        & Hreg2' & Hem2' & Hsel2').
  rewrite (name_reading_same s s1' _ Hsel1' Hst1') in Hrun2', Hst2', Hin2'.
  cbv zeta. rewrite Hrun1, Hrun1'. cbn [fst snd].
  rewrite Hrun2, Hrun2'. cbn [fst snd].
  rewrite Hst2, Hst1, Hst2', Hst1'.
  rewrite Hreg2, Hreg1, Hreg2', Hreg1', Hem2, Hem1, Hem2', Hem1'.
  rewrite Hsel2, Hsel1, Hsel2', Hsel1'.
  rewrite Hreg1 in Hlog2.
  split_and!; try reflexivity.
  - destruct (with_file_lookup (sanitize device_id)
                (command_file_name
                   (default (lit "unknown_cmd_ref") (commandRef req)) name
                   (clk_file (name_reading s (sanitize device_id))))
                (Uploaded bytes) (received_data s))
      as (folder & Hfolder & Hstored).
    eexists _, folder. split_and!; [exact Hfolder | exact Hstored | done..| |].
    + rewrite Hlog2, Hlog1, !elem_of_app. tauto.
    + rewrite Hlog2', !elem_of_app. tauto.
  - rewrite Hlog2, !elem_of_app, elem_of_cons. tauto.
  - rewrite Hlog2', Hlog1', !elem_of_app, elem_of_cons. tauto.
Qed.
End Correlation.

(** The delivery of ["f.png"] for ["phone1"] with reference ["ref1"], and the
    response to ["take_screenshot"] that names it. *)
Example delivery_reply :
  filename_on_server
    <$> (run (@upload_command_file Cpython.runtime
                {| deviceId := Some (lit "phone1");
                   commandRef := Some (lit "ref1");
                   file := Some {| filename := lit "shots/f.png";
                                   body := [1; 2; 3] |} |})
             Cpython.clock Cpython.one_session).1
  = Ret (Some (lit "ref1_f_20250102_030405.png")).
Proof. vm_compute. reflexivity. Qed.

(** The theorem at that delivery and that response, on the registry with the
    one session of ["phone1"]. *)
Lemma delivery_and_response_commute_witness :
  let req :=
    {| deviceId := Some (lit "phone1"); commandRef := Some (lit "ref1");
       file := Some {| filename := lit "shots/f.png"; body := [1; 2; 3] |} |} in
  let response :=
    handle_command_response (lit "sidA")
      (JObj [(lit "command", JStr (lit "take_screenshot"));
             (lit "status", JStr (lit "success"));
             (lit "payload",
              JObj [(lit "filename_on_server",
                     JStr (lit "ref1_f_20250102_030405.png"))])]) in
  let upload := @upload_command_file Cpython.runtime req in
  received_data
    (run response Cpython.later
       (run upload Cpython.clock Cpython.one_session).2).2
  = received_data
      (run upload Cpython.clock
         (run response Cpython.later Cpython.one_session).2).2.
Proof.
  intros req response upload.
  assert (lit "phone1" ≠ []) as Hid by discriminate.
  assert (lit "shots/f.png" ≠ []) as Hname by discriminate.
  exact (proj1 (@delivery_and_response_commute Cpython.runtime req
                  (lit "sidA") _ Cpython.clock Cpython.later
                  Cpython.one_session (lit "phone1") (lit "shots/f.png")
                  [1; 2; 3] eq_refl Hid eq_refl eq_refl Hname)).
Defined.

(** A late response on a handle that has left the registry is filed under
    the placeholder identifier and reaches the log and the console. *)
Example late_response_recorded :
  let s' :=
    (run (handle_command_response (lit "sidZ")
            (JObj [(lit "command", JStr (lit "take_screenshot"));
                   (lit "status", JStr (lit "success"))]))
         Cpython.clock Cpython.started_with_console).2 in
  logged s'
  = [(INFO, Response_for (JStr (lit "take_screenshot"))
              (JStr (lit "SID_sidZ")) (JStr (lit "success")) (Some []));
     (INFO, Response_from (JStr (lit "take_screenshot"))
              (JStr (lit "SID_sidZ")) (JStr (lit "success")));
     (INFO, Command_succeeded (JStr (lit "take_screenshot"))
              (JStr (lit "SID_sidZ")))]
  ∧ (length ∘ system_log <$> gui_app s') = Some 2%nat.
Proof. vm_compute. split; reflexivity. Qed.

(** A failed command whose payload is not a dict stops the console's display
    with an [AttributeError], after the response has been recorded. *)
Example malformed_payload_still_recorded :
  let '(r, s') :=
    run (handle_command_response (lit "sidA")
           (JObj [(lit "status", JStr (lit "failure"));
                  (lit "payload", JInt 7)]))
        Cpython.clock
        (set_gui id
           {| connected_clients_sio := connected_clients_sio Cpython.one_session;
              gui_app := Some Cpython.console; received_data := ∅;
              logged := []; emitted := [] |}) in
  r = Raise (AttributeError (JInt 7))
  ∧ logged s'
    = [(INFO, Response_for (JStr (lit "unknown_command"))
                (JStr (lit "phone1")) (JStr (lit "failure")) None);
       (INFO, Response_from (JStr (lit "unknown_command"))
                (JStr (lit "phone1")) (JStr (lit "failure")))].
Proof. vm_compute. split; reflexivity. Qed.

(** An initial upload without a usable deviceId or deviceInfo falls back to
    the generated key. *)
Example initial_upload_generated_key :
  let s' :=
    (run (@upload_initial_data Cpython.runtime
            {| json_data := Good_json (JObj [(lit "deviceId", JStr (lit "ab"))]);
               image := None |})
         Cpython.clock Cpython.started).2 in
  dom (received_data s') = {[lit "unidentified_device_20250102030405000000"]}.
Proof. vm_compute. reflexivity. Qed.

(** C7 as stated fails.  The registered handle ["sidA"] sends a response
    whose event data is the string ["done"] instead of a dict.  The handler
    stops at its first [data.get] with an [AttributeError]: the identifier
    is resolved, but nothing is logged and nothing reaches the console, so
    the response is dropped. *)
Lemma response_not_recorded :
  let s := Cpython.selected_session in
  let r := run (handle_command_response (lit "sidA") (JStr (lit "done")))
             Cpython.later s in
  resolve_device_id (connected_clients_sio s) (lit "sidA")
  = JStr (lit "phone1")
  ∧ r.1 = Raise (AttributeError (JStr (lit "done")))
  ∧ logged r.2 = logged s
  ∧ (system_log <$> gui_app r.2) = (system_log <$> gui_app s)
  ∧ r.2 = s.
Proof. vm_compute. split_and!; reflexivity. Qed.

(** An event whose data is not a dict stops the handler at its first
    [data.get], before anything is logged. *)
Example response_without_fields :
  run (handle_command_response (lit "sidA") (JStr (lit "done")))
      Cpython.clock Cpython.one_session
  = (Raise (AttributeError (JStr (lit "done"))), Cpython.one_session).
Proof. vm_compute. reflexivity. Qed.

(** An initial upload whose deviceId is five letters U+00E9 is stored under
    those letters. *)
Example initial_upload_latin1_key :
  let s' :=
    (run (@upload_initial_data Cpython.runtime
            {| json_data :=
                 Good_json (JObj [(lit "deviceId",
                                   JStr [233; 233; 233; 233; 233])]);
               image := None |})
         Cpython.clock Cpython.started).2 in
  dom (received_data s') = {[ [233; 233; 233; 233; 233] ]}.
Proof. vm_compute. reflexivity. Qed.

(** Selecting ["phone1"] in the console while both handles are registered
    makes ["sidA"] the target of the command buttons. *)
Example selection_targets_first_session :
  let s' :=
    (run (on_historical_device_select (lit "phone1")) Cpython.clock
         {| connected_clients_sio :=
              connected_clients_sio Cpython.two_sessions;
            gui_app := Some Cpython.console; received_data := ∅;
            logged := []; emitted := [] |}).2 in
  (current_selected_live_client_sid <$> gui_app s') = Some (Some (lit "sidA")).
Proof. vm_compute. reflexivity. Qed.

(** ** More about dicts *)

Section MoreDictLemmas.
Context {V : Type}.
Implicit Types (d : pydict V) (k : pystr).

Lemma dict_get_None_keys d k : dict_get d k = None ↔ k ∉ dict_keys d.
Proof.
  unfold dict_keys. induction d as [|[k' v] d IH]; simpl.
  - split; [intros _; apply not_elem_of_nil | done].
  - rewrite not_elem_of_cons. destruct (str_eqb k' k) eqn:E.
    + apply str_eqb_eq in E as ->. split; [done | intros [? _]; done].
    + rewrite IH. split; [|tauto]. intros Hk. split; [|done].
      intros ->. by rewrite str_eqb_refl in E.
Qed.

Lemma dict_keys_set d k v :
  dict_keys (dict_set d k v)
  = if dict_mem d k then dict_keys d else dict_keys d ++ [k].
Proof.
  unfold dict_keys, dict_mem. induction d as [|[k' v'] d IH]; simpl; [done|].
  destruct (str_eqb k' k) eqn:E; simpl; [done|]. rewrite IH.
  by destruct (dict_get d k).
Qed.

Lemma dict_set_NoDup d k v :
  NoDup (dict_keys d) → NoDup (dict_keys (dict_set d k v)).
Proof.
  intros Hd. rewrite dict_keys_set. unfold dict_mem.
  destruct (dict_get d k) eqn:E; [done|].
  apply NoDup_app. split_and!; [done| |apply NoDup_singleton].
  intros x Hx Hk. apply list_elem_of_singleton in Hk as ->.
  by apply dict_get_None_keys in E.
Qed.

Lemma dict_set_Forall (P : pystr * V → Prop) d k v :
  P (k, v) → Forall P d → Forall P (dict_set d k v).
Proof.
  intros Hkv. induction d as [|[k' v'] d IH]; simpl.
  - intros _. by constructor.
  - intros [Hhd Htl]%Forall_cons. destruct (str_eqb k' k) eqn:E.
    + apply str_eqb_eq in E as ->. by constructor.
    + constructor; [done | by apply IH].
Qed.

Lemma dict_alter_Forall (P : pystr * V → Prop) (f : V → V) d k :
  (∀ k' v, P (k', v) → P (k', f v)) →
  Forall P d → Forall P (dict_alter f d k).
Proof.
  intros Hf. induction d as [|[k' v'] d IH]; simpl; [done|].
  intros [Hhd Htl]%Forall_cons. destruct (str_eqb k' k).
  - constructor; [by apply Hf | done].
  - constructor; [done | by apply IH].
Qed.

Lemma dict_keys_del_sublist d k : sublist (dict_keys (dict_del d k)) (dict_keys d).
Proof.
  unfold dict_keys. induction d as [|[k' v'] d IH]; simpl; [done|].
  destruct (str_eqb k' k); simpl.
  - by apply sublist_cons.
  - by apply sublist_skip.
Qed.

Lemma dict_del_NoDup d k :
  NoDup (dict_keys d) → NoDup (dict_keys (dict_del d k)).
Proof. intros Hd. exact (sublist_NoDup _ _ Hd (dict_keys_del_sublist d k)). Qed.

Lemma dict_del_Forall (P : pystr * V → Prop) d k :
  Forall P d → Forall P (dict_del d k).
Proof.
  induction d as [|[k' v'] d IH]; simpl; [done|].
  intros [Hhd Htl]%Forall_cons. destruct (str_eqb k' k); [done|].
  constructor; [done | by apply IH].
Qed.

Lemma dict_get_del_eq d k :
  NoDup (dict_keys d) → dict_get (dict_del d k) k = None.
Proof.
  unfold dict_keys. induction d as [|[k' v'] d IH]; simpl; [done|].
  intros [Hhd Htl]%NoDup_cons. destruct (str_eqb k' k) eqn:E; simpl.
  - apply str_eqb_eq in E as ->. by apply dict_get_None_keys.
  - rewrite E. by apply IH.
Qed.

Lemma dict_get_del_ne d k k' :
  k' ≠ k → dict_get (dict_del d k) k' = dict_get d k'.
Proof.
  intros Hne. induction d as [|[k0 v0] d IH]; simpl; [done|].
  destruct (str_eqb k0 k) eqn:E; simpl.
  - apply str_eqb_eq in E as ->. by rewrite (str_eqb_ne k k').
  - by rewrite IH.
Qed.

Lemma dict_del_fresh d k v :
  dict_get d k = None → dict_del (d ++ [(k, v)]) k = d.
Proof.
  induction d as [|[k' v'] d IH]; simpl.
  - by rewrite str_eqb_refl.
  - destruct (str_eqb k' k); [done|]. intros Hd. by rewrite IH.
Qed.
End MoreDictLemmas.

(** ** What each event leaves alone *)

Ltac unfold_handlers :=
  unfold step, handler, handle_sio_connect, handle_sio_disconnect,
    handle_register_device, handle_device_heartbeat, handle_command_response,
    display_command_response, upload_initial_data, raw_device_id,
    fallback_device_id, initial_key, upload_command_file,
    on_historical_device_select, on_live_client_select, select_historical,
    select_live, send_if_selected, send_if_confirmed, send_command_to_client,
    display_device_details, refresh_historical_device_list, makedirs, save,
    json_dump, folder_at, selected_live_sid;
  run_handler.

(** Case analysis on a run, with the rendered timestamps kept folded. *)
Ltac case_step :=
  repeat (cbn -[command_file_name insert lookup isoformat strftime_file
                strftime_compact];
          match goal with
          | |- context [match ?x with _ => _ end] =>
              lazymatch x with
              | context [match _ with _ => _ end] => fail
              | _ => destruct x eqn:?
              end
          end);
  cbn -[command_file_name insert lookup isoformat strftime_file
        strftime_compact].

Section Frames.
Context `{PyRuntime}.

Lemma step_registry_frame e clk s :
  session_event e = false →
  connected_clients_sio (step s e clk) = connected_clients_sio s.
Proof.
  destruct s as [clients [[hist live slog ops]|] stored lines sent];
    destruct e; try discriminate; intros _;
    unfold_handlers; case_run; reflexivity.
Qed.

(** The registry changes only on a disconnect, a registration or a
    heartbeat. *)
Theorem registry_changed_by_session_events_only e clk s :
  session_event e = false →
  connected_clients_sio (step s e clk) = connected_clients_sio s.
Proof. apply step_registry_frame. Qed.

(** How a disconnect, a registration or a heartbeat changes the registry. *)
Lemma step_registry_effect e clk s :
  session_event e = true →
  let d := connected_clients_sio s in
  let d' := connected_clients_sio (step s e clk) in
  d' = d
  ∨ (∃ sid, d' = dict_del d sid)
  ∨ (∃ sid info,
       d' = dict_set d sid info
       ∧ c_sid info = sid ∧ truthy (c_id info) = true)
  ∨ (∃ sid t, d' = dict_alter (set_last_seen t) d sid).
Proof.
  destruct s as [clients [[hist live slog ops]|] stored lines sent];
    destruct e; try discriminate; intros _;
    unfold_handlers; unfold dict_mem; case_step.
  all: first
    [ by left
    | by right; left; eexists
    | right; right; left; eexists _, _;
      split; [reflexivity|]; split; [done|]; by apply negb_false_iff
    | by right; right; right; eexists _, _ ].
Qed.

Lemma step_registry_ok e clk s :
  registry_ok (connected_clients_sio s) →
  registry_ok (connected_clients_sio (step s e clk)).
Proof.
  intros [Hnodup Hall]. destruct (session_event e) eqn:E.
  - destruct (step_registry_effect e clk s E)
      as [-> | [[sid ->] | [(sid & info & -> & Hsid & Hid)
                           | (sid & t & ->)]]].
    + done.
    + split; [by apply dict_del_NoDup | by apply dict_del_Forall].
    + split; [by apply dict_set_NoDup|]. by apply dict_set_Forall.
    + split; [by rewrite dict_keys_alter|].
      apply dict_alter_Forall; [|done]. by intros k' [].
  - by rewrite (step_registry_frame e clk s E).
Qed.

(** Whatever the events, the registry keeps one entry per handle, each filed
    under its own handle and each with a device identifier that is true in
    the Python sense. *)
Theorem registry_stays_well_formed trace s :
  registry_ok (connected_clients_sio s) →
  registry_ok (connected_clients_sio (steps s trace)).
Proof.
  unfold steps. revert s. induction trace as [|[e clk] trace IH]; [done|].
  intros s Hs. cbn [foldl]. apply IH. by apply step_registry_ok.
Qed.

(** The store changes only on an upload. *)
Theorem store_changed_by_uploads_only e clk s :
  upload_event e = false →
  received_data (step s e clk) = received_data s.
Proof.
  destruct s as [clients [[hist live slog ops]|] stored lines sent];
    destruct e; try discriminate; intros _;
    unfold_handlers; case_run; reflexivity.
Qed.

(** Nothing is sent on a connect, a disconnect, a response, an upload, a
    selection in the console, or a command the operator did not confirm. *)
Theorem nothing_sent_unasked e clk s :
  answered_handle e = None → operator_command e = false →
  emitted (step s e clk) = emitted s.
Proof.
  destruct s as [clients [[hist live slog ops]|] stored lines sent];
    destruct e as [| | | | | | | | | |? []]; try discriminate; intros _ _;
    unfold_handlers; case_run; reflexivity.
Qed.

(** What a registration or a heartbeat makes the server send, if anything,
    is one event to the handle it came from. *)
Theorem answer_goes_to_sender e sid clk s :
  answered_handle e = Some sid →
  emitted (step s e clk) = emitted s
  ∨ ∃ answer,
      emitted (step s e clk) = emitted s ++ [answer] ∧ ev_to answer = sid.
Proof.
  destruct s as [clients [[hist live slog ops]|] stored lines sent];
    destruct e; try discriminate; intros [= <-];
    unfold_handlers; case_run; eauto.
Qed.

(** What a command of the operator makes the server send, if anything, is
    one event with an empty argument bag to the live handle the console has
    selected, and only when that handle is in the registry. *)
Theorem command_goes_to_selected_handle e clk s :
  operator_command e = true →
  emitted (step s e clk) = emitted s
  ∨ ∃ command,
      emitted (step s e clk) = emitted s ++ [command]
      ∧ selected_live_sid s = Some (ev_to command)
      ∧ dict_mem (connected_clients_sio s) (ev_to command) = true
      ∧ ev_data command = JObj [].
Proof.
  destruct s as [clients [[hist live slog ops]|] stored lines sent];
    destruct e as [| | | | | | | | | |? []]; try discriminate; intros _;
    unfold_handlers; unfold dict_mem; case_run; eauto.
  all: right; eexists; split; [reflexivity|]; cbn.
  all: by repeat match goal with Hk : _ = _ |- _ => rewrite Hk end.
Qed.
End Frames.

(** ** The life of a session *)

Section Sessions.
Context `{PyRuntime}.

Lemma register_effect sid ip items device_identifier clk s :
  dict_get items (lit "deviceId") = Some device_identifier →
  truthy device_identifier = true →
  let info :=
    {| c_sid := sid; c_id := device_identifier;
       c_name_display :=
         default (JStr (lit "Device_" ++ take 6 sid))
           (dict_get items (lit "deviceName"));
       c_platform :=
         default (JStr (lit "Unknown")) (dict_get items (lit "platform"));
       c_ip := ip;
       c_connected_at := isoformat (clk 0%nat);
       c_last_seen := isoformat (clk 1%nat) |} in
  let s' := step s (Register_device sid ip (JObj items)) clk in
  connected_clients_sio s' = dict_set (connected_clients_sio s) sid info
  ∧ emitted s'
    = emitted s
      ++ [{| ev_name := lit "registration_successful";
             ev_data :=
               JObj [(lit "message",
                      JStr (lit "Successfully registered with C2 panel."));
                     (lit "sid", JStr sid)];
             ev_to := sid |}].
Proof.
  destruct s as [clients [[hist live slog ops]|] stored lines sent];
    intros Hid Htrue; unfold_handlers;
    cbn -[isoformat]; rewrite Hid; cbn -[isoformat]; rewrite Htrue;
    case_step; done.
Qed.

(** A registration that carries a deviceId files the session under its
    handle, with the identifier, display name and platform of the payload
    (["Device_<first six of the handle>"] and ["Unknown"] when absent), the
    origin address and two clock readings; it leaves the sessions of other
    handles as they were, keeps the place of a handle that was registered
    already and puts a new handle last; and it answers the handle with one
    [registration_successful]. *)
Theorem registration_files_session sid ip items device_identifier clk s :
  dict_get items (lit "deviceId") = Some device_identifier →
  truthy device_identifier = true →
  let d := connected_clients_sio s in
  let s' := step s (Register_device sid ip (JObj items)) clk in
  let d' := connected_clients_sio s' in
  dict_get d' sid
  = Some {| c_sid := sid; c_id := device_identifier;
            c_name_display :=
              default (JStr (lit "Device_" ++ take 6 sid))
                (dict_get items (lit "deviceName"));
            c_platform :=
              default (JStr (lit "Unknown"))
                (dict_get items (lit "platform"));
            c_ip := ip;
            c_connected_at := isoformat (clk 0%nat);
            c_last_seen := isoformat (clk 1%nat) |}
  ∧ (∀ sid', sid' ≠ sid → dict_get d' sid' = dict_get d sid')
  ∧ dict_keys d' = (if dict_mem d sid then dict_keys d else dict_keys d ++ [sid])
  ∧ ∃ answer,
      emitted s' = emitted s ++ [answer]
      ∧ ev_name answer = lit "registration_successful"
      ∧ ev_to answer = sid.
Proof.
  intros Hid Htrue d s' d'. subst d s' d'.
  destruct (register_effect sid ip items device_identifier clk s Hid Htrue)
    as [-> ->].
  split_and!.
  - apply dict_get_set_eq.
  - intros sid' Hne. by apply dict_get_set_ne.
  - apply dict_keys_set.
  - eexists. split; [reflexivity|]. done.
Qed.

Lemma disconnect_effect sid ip clk s :
  let s' := step s (Disconnect sid ip) clk in
  connected_clients_sio s'
  = (if dict_mem (connected_clients_sio s) sid
     then dict_del (connected_clients_sio s) sid
     else connected_clients_sio s)
  ∧ selection s' = selection s.
Proof.
  destruct s as [clients [[hist live slog ops]|] stored lines sent];
    unfold_handlers; unfold dict_mem; case_step; done.
Qed.

Lemma disconnect_lookup sid ip clk s :
  registry_ok (connected_clients_sio s) →
  let d' := connected_clients_sio (step s (Disconnect sid ip) clk) in
  dict_get d' sid = None
  ∧ ∀ sid', sid' ≠ sid → dict_get d' sid' = dict_get (connected_clients_sio s) sid'.
Proof.
  intros [Hnodup _] d'. subst d'.
  rewrite (proj1 (disconnect_effect sid ip clk s)). unfold dict_mem.
  destruct (dict_get (connected_clients_sio s) sid) eqn:E.
  - split; [by apply dict_get_del_eq|].
    intros sid' Hne. by apply dict_get_del_ne.
  - done.
Qed.

(** After a disconnect the handle is not in the registry, whether it was
    before or not, and the sessions of the other handles are as they were. *)
Theorem disconnect_removes_session sid ip clk s :
  registry_ok (connected_clients_sio s) →
  let d' := connected_clients_sio (step s (Disconnect sid ip) clk) in
  dict_get d' sid = None
  ∧ ∀ sid', sid' ≠ sid → dict_get d' sid' = dict_get (connected_clients_sio s) sid'.
Proof. apply disconnect_lookup. Qed.

(** A handle that registers and then disconnects leaves the registry as it
    found it; a lookup by its device identifier then finds what it found
    before. *)
Theorem register_then_disconnect sid ip ip' items device_identifier
  clk clk' s :
  dict_get items (lit "deviceId") = Some device_identifier →
  truthy device_identifier = true →
  dict_get (connected_clients_sio s) sid = None →
  let s' :=
    step (step s (Register_device sid ip (JObj items)) clk)
      (Disconnect sid ip') clk' in
  connected_clients_sio s' = connected_clients_sio s
  ∧ ∀ device_id,
      find_sid_by_device_id (connected_clients_sio s') device_id
      = find_sid_by_device_id (connected_clients_sio s) device_id.
Proof.
  intros Hid Htrue Hfresh s'. subst s'.
  assert (connected_clients_sio
            (step (step s (Register_device sid ip (JObj items)) clk)
               (Disconnect sid ip') clk')
          = connected_clients_sio s) as Hsame.
  { rewrite (proj1 (disconnect_effect _ _ _ _)).
    rewrite (proj1 (register_effect sid ip items device_identifier clk s
                      Hid Htrue)).
    unfold dict_mem. rewrite dict_get_set_eq.
    rewrite (dict_set_fresh _ _ _ Hfresh). by apply dict_del_fresh. }
  split; [exact Hsame|]. intros device_id. by rewrite Hsame.
Qed.

Lemma find_sid_set d sid info device_id :
  no_match device_id d →
  json_eq_str (c_id info) device_id = true →
  find_sid_by_device_id (dict_set d sid info) device_id = Some sid.
Proof.
  unfold no_match. intros Hnone Hinfo.
  induction d as [|[sid0 info0] d IH]; simpl.
  - by rewrite Hinfo.
  - apply Forall_cons in Hnone as [Hhd Htl]. simpl in Hhd.
    destruct (str_eqb sid0 sid) eqn:E; simpl.
    + apply str_eqb_eq in E as ->. by rewrite Hinfo.
    + rewrite Hhd. by apply IH.
Qed.

(** Once a handle has registered under a device identifier that no session
    carried, the lookup by that identifier returns the handle. *)
Theorem registered_device_is_found sid ip items device_id clk s :
  dict_get items (lit "deviceId") = Some (JStr device_id) →
  device_id ≠ [] →
  no_match device_id (connected_clients_sio s) →
  find_sid_by_device_id
    (connected_clients_sio (step s (Register_device sid ip (JObj items)) clk))
    device_id
  = Some sid.
Proof.
  intros Hid Hne Hnone.
  assert (truthy (JStr device_id) = true) as Htrue.
  { cbn. by rewrite bool_decide_eq_false_2. }
  rewrite (proj1 (register_effect sid ip items _ clk s Hid Htrue)).
  apply find_sid_set; [done|]. cbn. apply str_eqb_refl.
Qed.

(** A disconnect leaves the console's selection alone, so the handle may
    stay selected; a command to it is then refused and nothing is sent. *)
Theorem command_after_disconnect_refused sid ip command_name args clk clk' s :
  registry_ok (connected_clients_sio s) →
  let s' := step s (Disconnect sid ip) clk in
  selection s' = selection s
  ∧ ∃ s'',
      run (send_command_to_client sid command_name args) clk' s'
      = (Ret false, s'')
      ∧ emitted s'' = emitted s'.
Proof.
  intros Hok s'.
  destruct (disconnect_lookup sid ip clk s Hok) as [Hgone _].
  split; [apply disconnect_effect|].
  fold s' in Hgone. revert Hgone. generalize s'. clear.
  intros [clients [[hist live slog ops]|] stored lines sent] Hgone;
    cbn in Hgone; unfold send_command_to_client; run_handler;
    cbn; rewrite Hgone; cbn; eexists; done.
Qed.

(** A selection in the list of stored devices records the device and, when
    a session carries its identifier, the handle of the first such session;
    when none does, the live handle selected before stays selected. *)
Theorem historical_selection device_id clk s :
  selection (step s (Historical_device_select device_id) clk)
  = (λ before,
       (Some device_id,
        match find_sid_by_device_id (connected_clients_sio s) device_id with
        | Some sid => Some sid
        | None => before.2
        end)) <$> selection s.
Proof.
  destruct s as [clients [[hist live slog ops]|] stored lines sent];
    unfold_handlers; case_step; done.
Qed.

(** A selection in the list of live clients changes what is selected only
    when a session carries the identifier of the row, and then selects the
    device together with the handle of the first such session. *)
Theorem live_selection device_id clk s :
  selection (step s (Live_client_select device_id) clk)
  = (λ before,
       match find_sid_by_device_id (connected_clients_sio s) device_id with
       | Some ((_ :: _) as sid) => (Some device_id, Some sid)
       | _ => before
       end) <$> selection s.
Proof.
  destruct s as [clients [[hist live slog ops]|] stored lines sent];
    unfold_handlers; case_step; done.
Qed.

(** No event takes a line out of the log, out of the console's system log or
    out of what has been sent: each of them only grows. *)
Theorem records_only_grow e clk s :
  logged s `prefix_of` logged (step s e clk)
  ∧ emitted s `prefix_of` emitted (step s e clk)
  ∧ match gui_app s, gui_app (step s e clk) with
    | Some g, Some g' => system_log g `prefix_of` system_log g'
    | None, None => True
    | _, _ => False
    end.
Proof.
  destruct s as [clients [[hist live slog ops]|] stored lines sent];
    destruct e; unfold_handlers; case_step.
  all: rewrite <- ?app_assoc.
  all: split_and!; try done; try apply prefix_app_r; done.
Qed.
End Sessions.

(** ** Storage keys and timestamps *)

Lemma zpad_length w n : length (zpad w n) = w.
Proof.
  revert n. induction w as [|w IH]; intros n; [done|].
  cbn [zpad]. rewrite length_app, IH. cbn. lia.
Qed.

Lemma zpad_inj w n m :
  n < 10 ^ N.of_nat w → m < 10 ^ N.of_nat w → zpad w n = zpad w m → n = m.
Proof.
  revert n m. induction w as [|w IH]; intros n m Hn Hm.
  - cbn in Hn, Hm. lia.
  - cbn [zpad]. intros Heq.
    apply app_inj_2 in Heq as [Hhigh Hlow]; [|done].
    injection Hlow as Hlow.
    rewrite Nat2N.inj_succ, N.pow_succ_r' in Hn, Hm.
    assert (n / 10 < 10 ^ N.of_nat w) as Hn'
      by (apply N.Div0.div_lt_upper_bound; lia).
    assert (m / 10 < 10 ^ N.of_nat w) as Hm'
      by (apply N.Div0.div_lt_upper_bound; lia).
    pose proof (IH _ _ Hn' Hm' Hhigh) as Hdiv.
    rewrite (N.div_mod n 10), (N.div_mod m 10) by lia.
    rewrite Hdiv. f_equal. lia.
Qed.

Lemma strftime_compact_length t : length (strftime_compact t) = 20%nat.
Proof. unfold strftime_compact. by rewrite !length_app, !zpad_length. Qed.

(** Two clock readings in the ranges of [datetime], from the year 1000 on,
    that differ are printed differently by ['%Y%m%d%H%M%S%f'], so the keys
    generated from them differ. *)
Theorem generated_keys_differ (t t' : datetime) :
  valid_datetime t → valid_datetime t' → t ≠ t' →
  lit "unidentified_device_" ++ strftime_compact t
  ≠ lit "unidentified_device_" ++ strftime_compact t'.
Proof.
  intros (Hy & Hmo & Hd & Hh & Hmi & Hs & Hus)
         (Hy' & Hmo' & Hd' & Hh' & Hmi' & Hs' & Hus') Hne.
  intros Heq. apply Hne. apply app_inv_head in Heq. unfold strftime_compact in Heq.
  repeat (apply app_inj_1 in Heq as [?%zpad_inj Heq];
          [|cbn; lia..|by rewrite !zpad_length]).
  apply zpad_inj in Heq; [|cbn; lia..].
  destruct t, t'; cbn in *; by subst.
Qed.

Section Keys.
Context `{PyRuntime}.

(** Sanitizing a sanitized identifier changes nothing: a device that sends
    the key it is stored under is stored under that key again. *)
Theorem sanitize_idempotent raw : sanitize (sanitize raw) = sanitize raw.
Proof.
  unfold sanitize. rewrite <- list_fmap_compose. apply list_fmap_ext.
  intros _ c _. cbn. unfold sanitize_char at 1.
  by rewrite sanitize_char_keeps.
Qed.

Lemma str_eqb_length (a b : pystr) :
  length a ≠ length b → str_eqb a b = false.
Proof. intros Hlen. apply str_eqb_ne. by intros ->. Qed.

Lemma generated_key_not_degenerate t :
  degenerate (lit "unidentified_device_" ++ strftime_compact t) = false.
Proof.
  assert (forallb is_ascii (lit "unidentified_device_" ++ strftime_compact t)
          = true) as Hascii.
  { rewrite forallb_app. apply andb_true_iff. split; [by vm_compute|].
    apply (forallb_impl ascii_digit).
    - intros c [_ Hhi]%andb_true_iff. apply N.leb_le in Hhi.
      apply N.ltb_lt. lia.
    - unfold strftime_compact. by rewrite !forallb_app, !zpad_digits. }
  unfold degenerate, lower. rewrite Hascii.
  rewrite bool_decide_eq_false_2 by done.
  cbn [orb str_in existsb].
  rewrite !str_eqb_length; [done|..].
  all: rewrite length_map, length_app, strftime_compact_length; by vm_compute.
Qed.

(** The key of an initial upload is never empty and never, in any letter
    case, one of the placeholder names ["unknown_model_unknown_device"],
    ["_"] and ["unknown_device_unknown_model"]. *)
Theorem initial_key_never_placeholder raw clk n s :
  ∃ key n',
    initial_key raw clk (n, s) = (Ret key, (n', s))
    ∧ degenerate key = false.
Proof.
  unfold initial_key. destruct (degenerate (sanitize raw)) eqn:E.
  - eexists _, _. split; [reflexivity|]. apply generated_key_not_degenerate.
  - eexists _, _. split; [reflexivity|]. exact E.
Qed.
End Keys.

(** ** The upload endpoints *)

Section Uploads.
Context `{PyRuntime}.

(** [upload_initial_data] answers 400 when [json_data] is absent or is
    rejected by [json.loads] with a [JSONDecodeError]; 500 when [json.loads]
    raises another exception, when the document or its deviceInfo is not an
    object, or when [json.dump] raises; and 200 otherwise.  A request that
    does not get as far as the folder of the device stores nothing.  (The
    file system is taken to accept every name it is given.) *)
Theorem initial_upload_verdicts req clk s :
  code <$> (run (upload_initial_data req) clk s).1
  = Ret (initial_upload_verdict req)
  ∧ (reaches_folder req = false →
     received_data (run (upload_initial_data req) clk s).2 = received_data s).
Proof.
  destruct s as [clients [[hist live slog ops]|] stored lines sent];
    destruct req as [[|text|e|[| | | | | |items]] img];
    unfold initial_upload_verdict, reaches_folder, document; unfold_handlers;
    cbn -[insert lookup strftime_file strftime_compact];
    try destruct (default (JObj []) (dict_get items (lit "deviceInfo")));
    try destruct (json_dump_error (JObj items));
    case_step; done.
Qed.

Lemma info_name_not_image_name (a b : pystr) :
  lit "info_" ++ a ≠ lit "initial_img_" ++ b.
Proof.
  intros Heq. apply (f_equal (take 3)) in Heq. vm_compute in Heq.
  discriminate.
Qed.

(** An initial upload whose document is an object, with deviceInfo absent
    or an object, writes the document into the folder of the device.  The
    folder is the one of the key the handler computes from the raw
    identifier, the file is named after the clock reading that follows the
    key's, and it holds the whole document when [json.dump] returns and part
    of it when [json.dump] raises.  The key is not a placeholder name, and
    every other folder is as it was. *)
Theorem initial_upload_stores_document items info img clk s :
  default (JObj []) (dict_get items (lit "deviceInfo")) = JObj info →
  let s' :=
    step s (Upload_initial_data {| json_data := Good_json (JObj items);
                                   image := img |}) clk in
  ∃ raw key k,
    (∀ w, (raw_device_id (JObj items) clk w).1 = Ret raw)
    ∧ (∀ s0, initial_key raw clk (0%nat, s0) = (Ret key, (k, s0)))
    ∧ degenerate key = false
    ∧ (∃ folder,
         received_data s' !! key = Some folder
         ∧ folder !! (lit "info_" ++ strftime_file (clk k) ++ lit ".json")
           = Some (match json_dump_error (JObj items) with
                   | None => Json_dump (JObj items)
                   | Some _ => Json_dump_partial (JObj items)
                   end))
    ∧ ∀ k', k' ≠ key → received_data s' !! k' = received_data s !! k'.
Proof.
  intros Hinfo.
  destruct s as [clients [[hist live slog ops]|] stored lines sent];
    unfold_handlers;
    cbn -[insert lookup strftime_file strftime_compact];
    rewrite Hinfo; destruct (json_dump_error (JObj items)); case_step.
  all: eexists _, _, _.
  all: split; [intros w; reflexivity|].
  all: split;
    [intros s0;
     repeat match goal with
            | Hk : degenerate ?x = _ |- context [degenerate ?x] => rewrite Hk
            end;
     cbn [fst snd]; reflexivity|].
  all: split; [first [done | apply generated_key_not_degenerate]|].
  all: split;
    [eexists; split; [rewrite lookup_insert_eq; reflexivity|];
     cbn -[insert lookup strftime_file strftime_compact];
     rewrite ?lookup_insert_eq;
     cbn -[insert lookup strftime_file strftime_compact];
     first [ done
           | apply lookup_insert_eq
           | rewrite lookup_insert_ne;
             [apply lookup_insert_eq
             | apply not_eq_sym, info_name_not_image_name] ]|].
  all: intros k' Hk'; by rewrite ?lookup_insert_ne.
Qed.

(** A command file upload without a deviceId is answered 400 and changes
    nothing but the log. *)
Theorem command_file_without_device_id req clk s :
  command_file_key (deviceId req) = None →
  ∃ s',
    run (upload_command_file req) clk s
    = (Ret (reply_error 400 (lit "Missing deviceId")), s')
    ∧ received_data s' = received_data s
    ∧ gui_app s' = gui_app s
    ∧ connected_clients_sio s' = connected_clients_sio s
    ∧ emitted s' = emitted s.
Proof.
  intros Hkey.
  destruct s as [clients console stored lines sent].
  unfold upload_command_file. run_handler. rewrite Hkey. cbn.
  eexists. split; [reflexivity|]. done.
Qed.

End Uploads.

(** ** Stored file names *)

Section FileNames.
Context `{PyRuntime}.

Lemma slash_not_kept_by_isalnum : isalnum (chr "/") = false.
Proof. by vm_compute. Qed.

Lemma safe_ref_no_slash command_ref : chr "/" ∉ safe_ref command_ref.
Proof.
  unfold safe_ref. intros (c & Hc & _)%list_elem_of_fmap.
  destruct (isalnum c) eqn:E; [|discriminate].
  subst c. by rewrite slash_not_kept_by_isalnum in E.
Qed.

Lemma strftime_file_no_slash t : chr "/" ∉ strftime_file t.
Proof.
  assert (∀ w n, chr "/" ∉ zpad w n) as Hzpad.
  { intros w n Hin.
    pose proof (zpad_digits w n) as Hdigits.
    rewrite forallb_forall in Hdigits.
    apply list_elem_of_In, Hdigits in Hin. by vm_compute in Hin. }
  unfold strftime_file. rewrite !elem_of_app.
  intros [?|[?|[?|[Hlit|[?|[?|?]]]]]]; try by eapply Hzpad.
  revert Hlit. by apply (bool_decide_unpack _).
Qed.

(** The name a command file is stored under holds no ["/"], so the file
    lands in the folder of the device, whenever the base name of the
    uploaded file name holds none and [os.path.splitext] splits that base
    name into two parts that make it up. *)
Theorem command_file_name_no_slash command_ref name t :
  chr "/" ∉ basename name →
  (splitext (basename name)).1 ++ (splitext (basename name)).2
  = basename name →
  chr "/" ∉ command_file_name command_ref name t.
Proof.
  intros Hbase Hsplit. unfold command_file_name, ext_or.
  destruct (splitext (basename name)) as [base ext] eqn:E. cbn in Hsplit.
  rewrite <- Hsplit in Hbase. rewrite elem_of_app in Hbase.
  rewrite !elem_of_app.
  intros [Hin|[Hin|[Hin|[Hin|[Hin|Hin]]]]].
  - by apply safe_ref_no_slash in Hin.
  - revert Hin. by apply (bool_decide_unpack _).
  - tauto.
  - revert Hin. by apply (bool_decide_unpack _).
  - by apply strftime_file_no_slash in Hin.
  - destruct ext; [|tauto]. revert Hin. by apply (bool_decide_unpack _).
Qed.
End FileNames.

(** The theorem at the uploaded name ["shots/f.png"]. *)
Lemma command_file_name_no_slash_witness :
  chr "/" ∉ @command_file_name Cpython.runtime (lit "ref/1")
              (lit "shots/f.png") Cpython.midnight.
Proof.
  apply (@command_file_name_no_slash Cpython.runtime).
  - by apply (bool_decide_unpack _).
  - by vm_compute.
Defined.

(** ** The custom command of the console *)

Lemma split_colon_spec s before after :
  split_colon s = Some (before, after) →
  s = before ++ chr ":" :: after ∧ chr ":" ∉ before.
Proof.
  revert before. induction s as [|c s IH]; intros before; [done|].
  cbn [split_colon]. destruct (c =? chr ":") eqn:E.
  - intros [= <- <-]. apply N.eqb_eq in E as ->.
    split; [done | apply not_elem_of_nil].
  - destruct (split_colon s) as [[a b]|]; [|done].
    cbn. intros [= <- <-]. destruct (IH a eq_refl) as [-> Hnotin].
    split; [done|]. rewrite not_elem_of_cons. split; [|done].
    intros Heq. rewrite <- Heq, N.eqb_refl in E. done.
Qed.

Lemma split_colon_none s : split_colon s = None → chr ":" ∉ s.
Proof.
  induction s as [|c s IH]; [intros _; apply not_elem_of_nil|].
  cbn [split_colon]. destruct (c =? chr ":") eqn:E; [done|].
  destruct (split_colon s); [done|]. intros _.
  rewrite not_elem_of_cons. split; [|by apply IH].
  intros Heq. rewrite <- Heq, N.eqb_refl in E. done.
Qed.

Lemma lstrip_suffix s : lstrip s `suffix_of` s.
Proof.
  induction s as [|c s IH]; [done|]. cbn [lstrip].
  destruct (isspace c); [by apply suffix_cons_r | done].
Qed.

Lemma strip_elem_of c s : c ∈ strip s → c ∈ s.
Proof.
  unfold strip. rewrite elem_of_reverse. intros Hin.
  pose proof (elem_of_suffix _ _ _ Hin (lstrip_suffix _)) as Hrev.
  rewrite elem_of_reverse in Hrev.
  exact (elem_of_suffix _ _ _ Hrev (lstrip_suffix s)).
Qed.

Section CustomCommands.
Variable json_loads : pystr → loads_result.

Lemma parse_custom_command_dict cmd name args :
  parse_custom_command json_loads cmd = Ret (name, args) → ∃ d, args = JObj d.
Proof.
  unfold parse_custom_command.
  destruct (split_colon cmd) as [[before after]|]; cbn.
  - destruct (json_loads (strip after)) as [[]| |]; intros [= <- <-] || done;
      by eexists.
  - intros [= <- <-]. by eexists.
Qed.

(** Whatever the operator types, a custom command that reaches the
    dispatcher hands it a dict as argument bag.  Without a colon the text is
    the command name and the bag is empty; with one, the text is cut at the
    first colon and the command name, the stripped text before it, holds no
    colon.  The method is left by an exception only when [json.loads] raises
    one that is not a [JSONDecodeError] on the stripped text after the first
    colon. *)
Theorem custom_command_shape cmd :
  match parse_custom_command json_loads cmd with
  | Ret (name, args) =>
      (∃ d, args = JObj d)
      ∧ match split_colon cmd with
        | Some (before, after) =>
            cmd = before ++ chr ":" :: after
            ∧ name = strip before
            ∧ chr ":" ∉ name
        | None => (chr ":" ∉ cmd) ∧ (name, args) = (cmd, JObj [])
        end
  | Raise e =>
      ∃ before after,
        split_colon cmd = Some (before, after)
        ∧ json_loads (strip after) = Loads_raised e
  end.
Proof.
  destruct (parse_custom_command json_loads cmd) as [[name args]|e] eqn:Hparse.
  - split; [by eapply parse_custom_command_dict|].
    unfold parse_custom_command in Hparse.
    destruct (split_colon cmd) as [[before after]|] eqn:E.
    + destruct (split_colon_spec _ _ _ E) as [-> Hnotin].
      assert (name = strip before) as ->
        by (destruct (json_loads (strip after)) as [[]| |]; congruence).
      split_and!; [done..|]. intros Hin. by apply strip_elem_of in Hin.
    + injection Hparse as <- <-. split; [by apply split_colon_none | done].
  - unfold parse_custom_command in Hparse.
    destruct (split_colon cmd) as [[before after]|]; [|done].
    exists before, after. split; [done|].
    destruct (json_loads (strip after)) as [[]| |]; congruence.
Qed.

(** The custom command sends at most one event, with a dict as argument
    bag, to the live handle the console has selected and only when that
    handle is in the registry.  When the method returns, the entry box has
    been cleared exactly when a handle is selected and the text is not
    blank, also when the command was refused.  When [json.loads] raises an
    exception that is not a [JSONDecodeError], the method is left with
    nothing sent, nothing logged and the entry box as it was.  Registry and
    store are never touched. *)
Theorem custom_command_dispatch entry clk s :
  let '(result, s') := run (send_custom_command json_loads entry) clk s in
  match result with
  | Ret cleared =>
      cleared
      = bool_decide (is_Some (selected_live_sid s) ∧ strip entry ≠ [])
      ∧ (emitted s' = emitted s
         ∨ ∃ command d,
             emitted s' = emitted s ++ [command]
             ∧ ev_data command = JObj d
             ∧ selected_live_sid s = Some (ev_to command)
             ∧ dict_mem (connected_clients_sio s) (ev_to command) = true)
  | Raise e =>
      is_Some (selected_live_sid s)
      ∧ parse_custom_command json_loads (strip entry) = Raise e
      ∧ s' = s
  end
  ∧ connected_clients_sio s' = connected_clients_sio s
  ∧ received_data s' = received_data s.
Proof.
  unfold send_custom_command, send_command_to_client. run_handler.
  destruct (selected_live_sid s) as [sid|] eqn:Hsel; cbn.
  2: { split; [|done]. split; [done | by left]. }
  destruct (strip entry) as [|c cmd] eqn:Hstrip; cbn.
  { split; [|done]. split; [done | by left]. }
  destruct (parse_custom_command json_loads (c :: cmd)) as [[name args]|e]
    eqn:Hparse; cbn.
  2: { destruct s; cbn. done. }
  destruct (parse_custom_command_dict _ _ _ Hparse) as [d ->].
  destruct s as [clients [[hist live slog ops]|] stored lines sent];
    unfold dict_mem; cbn in *; destruct (dict_get clients sid) eqn:Hget; cbn.
  all: split; [|done].
  all: split; [done|].
  all: try (left; reflexivity).
  all: right; eexists _, d; split; [reflexivity|]; cbn; by rewrite ?Hget.
Qed.
End CustomCommands.


(** ** The properties above at concrete inputs *)

Lemma one_session_registry_ok :
  registry_ok (connected_clients_sio Cpython.one_session).
Proof.
  split; [apply (bool_decide_unpack _); by vm_compute|].
  repeat constructor.
Qed.

(** An initial upload whose document holds a lone surrogate is answered 500,
    and yet leaves the folder of the device with part of the document. *)
Example initial_upload_lone_surrogate :
  let data :=
    JObj [(lit "deviceId", JStr (lit "phone1"));
          (lit "note", JStr [55296])] in
  let r :=
    run (@upload_initial_data Cpython.runtime
           {| json_data := Good_json data; image := None |})
        Cpython.clock Cpython.started in
  (code <$> r.1) = Ret 500
  ∧ received_data r.2
    = {[ lit "phone1"
         := {[ lit "info_20250102_030405.json" := Json_dump_partial data ]} ]}.
Proof. vm_compute. split; reflexivity. Qed.

(** An initial upload on which [json.loads] raises a [ValueError] is
    answered 500 and stores nothing. *)
Example initial_upload_loads_raises :
  let r :=
    run (@upload_initial_data Cpython.runtime
           {| json_data := Loads_raises (ValueError (lit "Exceeds the limit"));
              image := None |})
        Cpython.clock Cpython.started in
  r.1 = Ret (reply_error 500 (lit "Internal server error: Exceeds the limit"))
  ∧ received_data r.2 = ∅.
Proof. vm_compute. split; reflexivity. Qed.

(** A command file upload for the deviceId ["."] without a file makes no
    folder and logs no creation. *)
Example command_file_for_dot :
  let r :=
    run (@upload_command_file Cpython.runtime
           {| deviceId := Some (lit "."); commandRef := None; file := None |})
        Cpython.clock Cpython.started in
  (code <$> r.1) = Ret 400
  ∧ received_data r.2 = ∅
  ∧ logged r.2
    = [(INFO, Request_to (lit "/upload_command_file")); (ERROR, No_file_data)].
Proof. vm_compute. split_and!; reflexivity. Qed.

(** A custom command on which [json.loads] raises a [RecursionError] sends
    nothing and leaves the entry box as it was. *)
Example custom_command_loads_raises :
  run (send_custom_command (λ _, Loads_raised RecursionError)
         (lit "scan: [[[[1]]]]"))
      Cpython.later Cpython.selected_session
  = (Raise RecursionError, Cpython.selected_session).
Proof. vm_compute. reflexivity. Qed.

(** A custom command with a JSON number after the colon: the number is
    wrapped into a dict. *)
Example custom_command_with_number :
  let r :=
    run (send_custom_command (λ _, Decoded (JInt 2)) (lit " scan : 2 "))
        Cpython.later Cpython.selected_session in
  r.1 = Ret true
  ∧ last (emitted r.2)
    = Some {| ev_name := lit "scan";
              ev_data := JObj [(lit "value", JInt 2)];
              ev_to := lit "sidA" |}.
Proof. vm_compute. split; reflexivity. Qed.

(** A response leaves the registry of the one session alone. *)
Lemma registry_changed_by_session_events_only_witness :
  connected_clients_sio
    (@step Cpython.runtime Cpython.one_session
       (Command_response (lit "sidA") (JObj [])) Cpython.later)
  = connected_clients_sio Cpython.one_session.
Proof.
  exact (@registry_changed_by_session_events_only Cpython.runtime
           (Command_response (lit "sidA") (JObj [])) Cpython.later
           Cpython.one_session eq_refl).
Defined.

(** The registry after a registration, a heartbeat, a second registration
    and a disconnect. *)
Lemma registry_stays_well_formed_witness :
  registry_ok
    (connected_clients_sio
       (@steps Cpython.runtime Cpython.started
          [(Register_device (lit "sidA") (lit "10.0.0.7") Cpython.phone1,
            Cpython.clock);
           (Device_heartbeat (lit "sidA") JNull, Cpython.later);
           (Register_device (lit "sidB") (lit "10.0.0.8") Cpython.phone1,
            Cpython.later);
           (Disconnect (lit "sidA") (lit "10.0.0.7"), Cpython.later)])).
Proof.
  apply (@registry_stays_well_formed Cpython.runtime).
  split; constructor.
Defined.

(** A heartbeat leaves the store alone. *)
Lemma store_changed_by_uploads_only_witness :
  received_data
    (@step Cpython.runtime Cpython.one_session
       (Device_heartbeat (lit "sidA") JNull) Cpython.later)
  = received_data Cpython.one_session.
Proof.
  exact (@store_changed_by_uploads_only Cpython.runtime
           (Device_heartbeat (lit "sidA") JNull) Cpython.later
           Cpython.one_session eq_refl).
Defined.

(** An unconfirmed self-destruct sends nothing. *)
Lemma nothing_sent_unasked_witness :
  emitted
    (@step Cpython.runtime Cpython.one_session
       (Confirmed_button (lit "self_destruct") false) Cpython.later)
  = emitted Cpython.one_session.
Proof.
  exact (@nothing_sent_unasked Cpython.runtime
           (Confirmed_button (lit "self_destruct") false) Cpython.later
           Cpython.one_session eq_refl eq_refl).
Defined.

(** The answer to a second registration goes to the handle that sent it. *)
Lemma answer_goes_to_sender_witness :
  emitted Cpython.two_sessions = emitted Cpython.one_session
  ∨ ∃ answer,
      emitted Cpython.two_sessions = emitted Cpython.one_session ++ [answer]
      ∧ ev_to answer = lit "sidB".
Proof.
  exact (@answer_goes_to_sender Cpython.runtime
           (Register_device (lit "sidB") (lit "10.0.0.8") Cpython.phone1)
           (lit "sidB") Cpython.later Cpython.one_session eq_refl).
Defined.

(** A screenshot command after handle ["sidA"] has registered and has been
    selected: one event goes out, to ["sidA"]. *)
Lemma command_goes_to_selected_handle_witness :
  let s := Cpython.selected_session in
  let s' :=
    @step Cpython.runtime s (Command_button (lit "take_screenshot"))
      Cpython.later in
  ∃ command,
    emitted s' = emitted s ++ [command]
    ∧ selected_live_sid s = Some (ev_to command)
    ∧ dict_mem (connected_clients_sio s) (ev_to command) = true
    ∧ ev_data command = JObj []
    ∧ ev_to command = lit "sidA".
Proof.
  destruct (@command_goes_to_selected_handle Cpython.runtime
              (Command_button (lit "take_screenshot")) Cpython.later
              Cpython.selected_session eq_refl)
    as [Hsame | (command & Hsent & Hsel & Hmem & Hdata)].
  - exfalso. apply (f_equal length) in Hsame. vm_compute in Hsame.
    discriminate.
  - exists command. split_and!; [exact Hsent | exact Hsel | exact Hmem
                                 | exact Hdata |].
    assert (selected_live_sid Cpython.selected_session = Some (lit "sidA"))
      as Hsid by (vm_compute; reflexivity).
    rewrite Hsid in Hsel. by injection Hsel.
Defined.

(** The session filed for handle ["sidB"]. *)
Lemma registration_files_session_witness :
  c_id <$> dict_get
             (connected_clients_sio
                (@step Cpython.runtime Cpython.one_session
                   (Register_device (lit "sidB") (lit "10.0.0.8")
                      (JObj [(lit "deviceId", JStr (lit "phone1"))]))
                   Cpython.later))
             (lit "sidB")
  = Some (JStr (lit "phone1")).
Proof.
  rewrite (proj1 (@registration_files_session Cpython.runtime (lit "sidB")
                    (lit "10.0.0.8") [(lit "deviceId", JStr (lit "phone1"))]
                    (JStr (lit "phone1")) Cpython.later Cpython.one_session
                    eq_refl eq_refl)).
  reflexivity.
Defined.

(** The one session disconnects. *)
Lemma disconnect_removes_session_witness :
  dict_get
    (connected_clients_sio
       (@step Cpython.runtime Cpython.one_session
          (Disconnect (lit "sidA") (lit "10.0.0.7")) Cpython.later))
    (lit "sidA")
  = None.
Proof.
  exact (proj1 (@disconnect_removes_session Cpython.runtime (lit "sidA")
                  (lit "10.0.0.7") Cpython.later Cpython.one_session
                  one_session_registry_ok)).
Defined.

(** Handle ["sidB"] registers and disconnects. *)
Lemma register_then_disconnect_witness :
  connected_clients_sio
    (@step Cpython.runtime Cpython.two_sessions
       (Disconnect (lit "sidB") (lit "10.0.0.8")) Cpython.later)
  = connected_clients_sio Cpython.one_session.
Proof.
  exact (proj1 (@register_then_disconnect Cpython.runtime (lit "sidB")
                  (lit "10.0.0.8") (lit "10.0.0.8")
                  [(lit "deviceId", JStr (lit "phone1"))]
                  (JStr (lit "phone1")) Cpython.later Cpython.later
                  Cpython.one_session eq_refl eq_refl eq_refl)).
Defined.

(** The first registration of ["phone1"] is found. *)
Lemma registered_device_is_found_witness :
  find_sid_by_device_id (connected_clients_sio Cpython.one_session)
    (lit "phone1")
  = Some (lit "sidA").
Proof.
  assert (lit "phone1" ≠ []) as Hne by discriminate.
  exact (@registered_device_is_found Cpython.runtime (lit "sidA")
           (lit "10.0.0.7") [(lit "deviceId", JStr (lit "phone1"))]
           (lit "phone1") Cpython.clock Cpython.started eq_refl Hne
           (Forall_nil_2 _)).
Defined.

(** A screenshot command to the one session after it has disconnected. *)
Lemma command_after_disconnect_refused_witness :
  ∃ s'',
    run (send_command_to_client (lit "sidA") (lit "take_screenshot") None)
        Cpython.later
        (@step Cpython.runtime Cpython.one_session
           (Disconnect (lit "sidA") (lit "10.0.0.7")) Cpython.later)
    = (Ret false, s'')
    ∧ emitted s''
      = emitted (@step Cpython.runtime Cpython.one_session
                   (Disconnect (lit "sidA") (lit "10.0.0.7")) Cpython.later).
Proof.
  exact (proj2 (@command_after_disconnect_refused Cpython.runtime (lit "sidA")
                  (lit "10.0.0.7") (lit "take_screenshot") None
                  Cpython.later Cpython.later Cpython.one_session
                  one_session_registry_ok)).
Defined.

(** Two readings of the clock, within one second. *)
Lemma generated_keys_differ_witness :
  lit "unidentified_device_" ++ strftime_compact (Cpython.clock 0)
  ≠ lit "unidentified_device_" ++ strftime_compact (Cpython.clock 1).
Proof.
  apply generated_keys_differ.
  - unfold valid_datetime. cbn. lia.
  - unfold valid_datetime. cbn. lia.
  - discriminate.
Defined.

(** An initial upload of [{"deviceId": "phone1"}]: the document is in the
    folder ["phone1"]. *)
Lemma initial_upload_stores_document_witness :
  ∃ folder,
    received_data
      (@step Cpython.runtime Cpython.started
         (Upload_initial_data
            {| json_data := Good_json Cpython.phone1; image := None |})
         Cpython.clock) !! lit "phone1" = Some folder
    ∧ folder !! lit "info_20250102_030405.json"
      = Some (Json_dump Cpython.phone1).
Proof.
  destruct (@initial_upload_stores_document Cpython.runtime
              [(lit "deviceId", JStr (lit "phone1"))] [] None Cpython.clock
              Cpython.started eq_refl)
    as (raw & key & k & Hraw & Hkey & _ & (folder & Hfolder & Hfile) & _).
  specialize (Hraw (0%nat, Cpython.started)). vm_compute in Hraw.
  injection Hraw as <-.
  specialize (Hkey Cpython.started). vm_compute in Hkey.
  injection Hkey as <- <-.
  exists folder. split; [exact Hfolder | exact Hfile].
Defined.

(** A command file upload with an empty deviceId. *)
Lemma command_file_without_device_id_witness :
  ∃ s',
    run (@upload_command_file Cpython.runtime
           {| deviceId := Some []; commandRef := None; file := None |})
        Cpython.clock Cpython.started
    = (Ret (reply_error 400 (lit "Missing deviceId")), s')
    ∧ received_data s' = received_data Cpython.started.
Proof.
  destruct (@command_file_without_device_id Cpython.runtime
              {| deviceId := Some []; commandRef := None; file := None |}
              Cpython.clock Cpython.started eq_refl)
    as (s' & Hrun & Hstore & _).
  by exists s'.
Defined.


(** ** More about how the handlers compose *)

Section Compositions.
Context `{PyRuntime}.

(** What the console has selected changes only on a selection: a session
    that registers, heartbeats or disconnects does not move it. *)
Theorem selection_changed_by_selecting_only e clk s :
  select_event e = false → selection (step s e clk) = selection s.
Proof.
  destruct s as [clients [[hist live slog ops]|] stored lines sent];
    destruct e; try discriminate; intros _;
    unfold_handlers; case_step; reflexivity.
Qed.

(** A response that arrives on a handle after its disconnect is filed under
    the placeholder ["SID_<handle>"]. *)
Theorem late_response_filed_under_placeholder sid ip clk s :
  registry_ok (connected_clients_sio s) →
  resolve_device_id
    (connected_clients_sio (step s (Disconnect sid ip) clk)) sid
  = JStr (lit "SID_" ++ sid).
Proof.
  intros Hok. unfold resolve_device_id.
  by rewrite (proj1 (disconnect_lookup sid ip clk s Hok)).
Qed.

(** For a deviceId of five characters or more whose sanitized form is not a
    placeholder name, the two upload endpoints store under the same key. *)
Theorem endpoints_agree_on_key items device_id clk n s :
  dict_get items (lit "deviceId") = Some (JStr device_id) →
  (5 ≤ length device_id)%nat →
  degenerate (sanitize device_id) = false →
  ∃ w w',
    raw_device_id (JObj items) clk (n, s) = (Ret device_id, w)
    ∧ initial_key device_id clk w = (Ret (sanitize device_id), w')
    ∧ command_file_key (Some device_id) = Some (sanitize device_id).
Proof.
  intros Hid Hlen Hdeg. eexists _, _. split_and!.
  - by apply supplied_identifier.
  - unfold initial_key. by rewrite Hdeg.
  - apply command_file_key_nonempty. destruct device_id; [cbn in Hlen; lia|done].
Qed.

Lemma with_file_twice (key name : pystr) (c c' : content)
  (stored : gmap pystr (gmap pystr content)) :
  with_file key name c' (with_file key name c stored)
  = with_file key name c' stored.
Proof.
  unfold with_file. rewrite lookup_insert_eq. cbn.
  by rewrite insert_insert_eq, insert_insert_eq.
Qed.

Lemma command_file_name_same_second command_ref name t t' :
  same_second t t' →
  command_file_name command_ref name t = command_file_name command_ref name t'.
Proof.
  intros (Hy & Hmo & Hd & Hh & Hmi & Hs).
  unfold command_file_name, strftime_file.
  by rewrite Hy, Hmo, Hd, Hh, Hmi, Hs.
Qed.

(** Two deliveries for the same device with the same reference and file
    name, within the same second, are stored under the same name: the store
    ends as if only the second had arrived. *)
Theorem deliveries_in_one_second_overwrite
  device_id command_ref name bytes bytes' clk clk' s :
  device_id ≠ [] → name ≠ [] →
  (∀ i j, same_second (clk i) (clk' j)) →
  let delivery content :=
    upload_command_file
      {| deviceId := Some device_id; commandRef := command_ref;
         file := Some {| filename := name; body := content |} |} in
  received_data
    (run (delivery bytes') clk' (run (delivery bytes) clk s).2).2
  = received_data (run (delivery bytes') clk' s).2.
Proof.
  intros Hne Hname Hsame delivery. subst delivery.
  destruct (upload_command_file_effect
              {| deviceId := Some device_id; commandRef := command_ref;
                 file := Some {| filename := name; body := bytes |} |}
              clk s device_id name bytes eq_refl Hne eq_refl Hname)
    as (s1 & Hrun1 & Hstore1 & _).
  rewrite Hrun1. cbn [snd].
  destruct (upload_command_file_effect
              {| deviceId := Some device_id; commandRef := command_ref;
                 file := Some {| filename := name; body := bytes' |} |}
              clk' s1 device_id name bytes' eq_refl Hne eq_refl Hname)
    as (s2 & Hrun2 & Hstore2 & _).
  rewrite Hrun2. cbn [snd].
  destruct (upload_command_file_effect
              {| deviceId := Some device_id; commandRef := command_ref;
                 file := Some {| filename := name; body := bytes' |} |}
              clk' s device_id name bytes' eq_refl Hne eq_refl Hname)
    as (s2' & Hrun2' & Hstore2' & _).
  rewrite Hrun2'. cbn [snd].
  cbn [commandRef] in *. rewrite Hstore2, Hstore2', Hstore1.
  assert (∀ t t',
            (∃ i, t = clk i) ∨ (∃ j, t = clk' j) →
            (∃ i, t' = clk i) ∨ (∃ j, t' = clk' j) →
            command_file_name (default (lit "unknown_cmd_ref") command_ref)
              name t
            = command_file_name (default (lit "unknown_cmd_ref") command_ref)
                name t') as Hnames.
  { assert (∀ t, (∃ i, t = clk i) ∨ (∃ j, t = clk' j) →
              command_file_name (default (lit "unknown_cmd_ref") command_ref)
                name t
              = command_file_name
                  (default (lit "unknown_cmd_ref") command_ref) name
                  (clk 0%nat)) as Hto.
    { intros t [[i ->]|[j ->]].
      - rewrite (command_file_name_same_second _ _ _ _ (Hsame i 0%nat)).
        symmetry. apply command_file_name_same_second, Hsame.
      - symmetry. apply command_file_name_same_second, Hsame. }
    intros t t' Ht Ht'. by rewrite (Hto t Ht), (Hto t' Ht'). }
  rewrite (Hnames (clk (name_reading s (sanitize device_id)))
             (clk' (name_reading s (sanitize device_id)))) by eauto.
  rewrite (Hnames (clk' (name_reading s1 (sanitize device_id)))
             (clk' (name_reading s (sanitize device_id)))) by eauto.
  apply with_file_twice.
Qed.
End Compositions.

(** A heartbeat does not move the selection. *)
Lemma selection_changed_by_selecting_only_witness :
  selection
    (@step Cpython.runtime Cpython.started_with_console
       (Device_heartbeat (lit "sidA") JNull) Cpython.clock)
  = selection Cpython.started_with_console.
Proof.
  exact (@selection_changed_by_selecting_only Cpython.runtime
           (Device_heartbeat (lit "sidA") JNull) Cpython.clock
           Cpython.started_with_console eq_refl).
Defined.

(** The one session disconnects and its response arrives late. *)
Lemma late_response_filed_under_placeholder_witness :
  resolve_device_id
    (connected_clients_sio
       (@step Cpython.runtime Cpython.one_session
          (Disconnect (lit "sidA") (lit "10.0.0.7")) Cpython.later))
    (lit "sidA")
  = JStr (lit "SID_sidA").
Proof.
  exact (@late_response_filed_under_placeholder Cpython.runtime (lit "sidA")
           (lit "10.0.0.7") Cpython.later Cpython.one_session
           one_session_registry_ok).
Defined.

(** The deviceId ["phone1"] at both endpoints. *)
Lemma endpoints_agree_on_key_witness :
  ∃ w w',
    @raw_device_id Cpython.runtime Cpython.phone1 Cpython.clock
      (0%nat, Cpython.started) = (Ret (lit "phone1"), w)
    ∧ @initial_key Cpython.runtime (lit "phone1") Cpython.clock w
      = (Ret (lit "phone1"), w')
    ∧ @command_file_key Cpython.runtime (Some (lit "phone1"))
      = Some (lit "phone1").
Proof.
  assert (5 ≤ length (lit "phone1"))%nat as Hlen by (vm_compute; lia).
  exact (@endpoints_agree_on_key Cpython.runtime
           [(lit "deviceId", JStr (lit "phone1"))] (lit "phone1")
           Cpython.clock 0%nat Cpython.started eq_refl Hlen eq_refl).
Defined.

(** Two deliveries of ["f.png"] for ["phone1"] within one second. *)
Lemma deliveries_in_one_second_overwrite_witness :
  let delivery content :=
    @upload_command_file Cpython.runtime
      {| deviceId := Some (lit "phone1"); commandRef := None;
         file := Some {| filename := lit "f.png"; body := content |} |} in
  received_data
    (run (delivery [2]) Cpython.clock
       (run (delivery [1]) Cpython.clock Cpython.started).2).2
  = received_data (run (delivery [2]) Cpython.clock Cpython.started).2.
Proof.
  assert (lit "phone1" ≠ []) as Hne by discriminate.
  assert (lit "f.png" ≠ []) as Hname by discriminate.
  assert (∀ i j, same_second (Cpython.clock i) (Cpython.clock j)) as Hsame
    by (intros i j; repeat split).
  exact (@deliveries_in_one_second_overwrite Cpython.runtime (lit "phone1")
           None (lit "f.png") [1] [2] Cpython.clock Cpython.clock
           Cpython.started Hne Hname Hsame).
Defined.
